(** * The WebTorrent download service (src/lib/webtorrent-service.ts)

    A shallow embedding of [WebTorrentService]: the status classifier
    [getTorrentProgress], the history store ([loadHistory], [saveHistory],
    [updateHistory]), [addTorrent] and [getLargestFileForStreaming].

    JavaScript numbers that hold counts, byte sizes, rates and epoch
    milliseconds are integers of [Z]; [undefined] is [None]; the mutable
    fields of [this] and the browser objects the service talks to
    (localStorage, the console, the clock, the event emitter) are the fields
    of one state record threaded through a state-and-exception monad. *)

From Stdlib Require Import ZArith Ascii String List Lia.
From stdpp Require Import base decidable option list strings pretty.

Local Open Scope string_scope.
Local Open Scope list_scope.
Local Open Scope Z_scope.

(** ** Data model *)

(** [TorrentProgressStatus]: the union of string literals of the source. *)
Module TorrentProgressStatus.
Inductive t : Set :=
| idle | downloading | seeding | paused | error
| connecting | done | metadata | stalled | no_peers.

#[global] Instance progress_status_eq_dec : EqDecision t.
Proof. solve_decision. Defined.
End TorrentProgressStatus.

(** [HistoryItem['status']].  The declared union has six members;
    [pauseTorrent] also stores the literal 'paused' in [statusForHistory],
    which the seventh constructor stands for. *)
Module HistoryStatus.
Inductive t : Set :=
| completed | failed | removed | active | error | stalled | paused.

#[global] Instance history_status_eq_dec : EqDecision t.
Proof. solve_decision. Defined.
End HistoryStatus.

(** [itemId?: string | number]. *)
Inductive ItemId : Set :=
| ItemStr (s : string)
| ItemNum (n : Z).

(** The part of the engine's [TorrentFile] the service reads.  The service
    also reaches for a method [createServer] through [(file as any)], which
    the type does not declare: [createServer] tells whether the object at
    hand has it. *)
Module TorrentFile.
Record t : Set := mk { name : string; length : Z; createServer : bool }.
End TorrentFile.

(** The engine's [Torrent] with the service's extra fields.  A [Date] is
    its epoch-millisecond value ([getTime]). *)
Module Torrent.
Record t : Set := mk {
  infoHash : string;
  magnetURI : string;
  name : string;
  ready : bool;
  done : bool;
  paused : bool;
  progress : Z;
  downloadSpeed : Z;
  uploadSpeed : Z;
  numPeers : Z;
  timeRemaining : Z;
  downloaded : Z;
  length : Z;
  files : list TorrentFile.t;
  customName : option string;
  addedDate : option Z;
  itemId : option ItemId;
  statusForHistory : option HistoryStatus.t;
  lastProgressTime : option Z;
  noPeersReason : option string
}.

Definition set_lastProgressTime (v : option Z) (x : t) : t :=
  mk (infoHash x) (magnetURI x) (name x) (ready x) (done x) (paused x)
     (progress x) (downloadSpeed x) (uploadSpeed x) (numPeers x)
     (timeRemaining x) (downloaded x) (length x) (files x)
     (customName x) (addedDate x) (itemId x) (statusForHistory x)
     v (noPeersReason x).

Definition set_noPeersReason (v : option string) (x : t) : t :=
  mk (infoHash x) (magnetURI x) (name x) (ready x) (done x) (paused x)
     (progress x) (downloadSpeed x) (uploadSpeed x) (numPeers x)
     (timeRemaining x) (downloaded x) (length x) (files x)
     (customName x) (addedDate x) (itemId x) (statusForHistory x)
     (lastProgressTime x) v.

Definition set_paused (v : bool) (x : t) : t :=
  mk (infoHash x) (magnetURI x) (name x) (ready x) (done x) v
     (progress x) (downloadSpeed x) (uploadSpeed x) (numPeers x)
     (timeRemaining x) (downloaded x) (length x) (files x)
     (customName x) (addedDate x) (itemId x) (statusForHistory x)
     (lastProgressTime x) (noPeersReason x).

Definition set_statusForHistory (v : option HistoryStatus.t) (x : t) : t :=
  mk (infoHash x) (magnetURI x) (name x) (ready x) (done x) (paused x)
     (progress x) (downloadSpeed x) (uploadSpeed x) (numPeers x)
     (timeRemaining x) (downloaded x) (length x) (files x)
     (customName x) (addedDate x) (itemId x) v
     (lastProgressTime x) (noPeersReason x).

(** The four assignments at the head of the [client.add] callback. *)
Definition enhance (itemName : option string) (item : option ItemId)
    (now : Z) (x : t) : t :=
  mk (infoHash x) (magnetURI x) (name x) (ready x) (done x) (paused x)
     (progress x) (downloadSpeed x) (uploadSpeed x) (numPeers x)
     (timeRemaining x) (downloaded x) (length x) (files x)
     itemName (Some now) item (statusForHistory x)
     (Some now) (noPeersReason x).
End Torrent.

Module TorrentProgress.
Record t : Set := mk {
  torrentId : string;
  progress : Z;
  downloadSpeed : Z;
  uploadSpeed : Z;
  peers : Z;
  remainingTime : Z;
  downloaded : Z;
  length : Z;
  customName : option string;
  addedDate : option Z;
  itemId : option ItemId;
  status : TorrentProgressStatus.t;
  noPeersReason : option string
}.
End TorrentProgress.

Module HistoryItem.
Record t : Set := mk {
  infoHash : string;
  magnetURI : string;
  name : string;
  itemId : option ItemId;
  addedDate : string;
  completedDate : option string;
  status : HistoryStatus.t;
  size : option Z;
  lastError : option string
}.
End HistoryItem.

Definition STALL_TIMEOUT : Z := 30000.
Definition NO_PEERS_TIMEOUT : Z := 60000.

(** ** JavaScript's [||] on optional values *)

(** [x || d] for an optional number: [undefined] and [0] are falsy. *)
Definition num_or (x : option Z) (d : Z) : Z :=
  match x with
  | Some v => if v =? 0 then d else v
  | None => d
  end.

(** [x || y] for optional strings: [undefined] and the empty string are
    falsy, and the result is [y] whatever it is. *)
Definition str_or (x y : option string) : option string :=
  match x with
  | Some "" => y
  | Some s => Some s
  | None => y
  end.

(** ** The status classifier *)

(** [getTorrentProgress] reads the clock through [Date.now()] and assigns
    two fields of the torrent object it is handed.  Here the clock is the
    argument [now], one value for the readings of a single call, and the
    torrent after the call is the second component of the result. *)
Definition getTorrentProgress (now : Z) (torrent : Torrent.t)
    : TorrentProgress.t * Torrent.t :=
  let status :=
    if Torrent.ready torrent then
      if Torrent.done torrent then
        if 0 <? Torrent.uploadSpeed torrent
        then TorrentProgressStatus.seeding
        else TorrentProgressStatus.done
      else if Torrent.paused torrent then TorrentProgressStatus.paused
      else TorrentProgressStatus.downloading
    else TorrentProgressStatus.metadata in
  let '(status, torrent) :=
    if bool_decide (status = TorrentProgressStatus.downloading)
       && (Torrent.downloadSpeed torrent =? 0)
       && (0 <? Torrent.numPeers torrent)
    then
      if STALL_TIMEOUT <? now - num_or (Torrent.lastProgressTime torrent) now
      then (TorrentProgressStatus.stalled, torrent)
      else (status, torrent)
    else if bool_decide (status = TorrentProgressStatus.downloading)
    then (status, Torrent.set_lastProgressTime (Some now) torrent)
    else (status, torrent) in
  let '(status, torrent) :=
    if bool_decide (status <> TorrentProgressStatus.done)
       && bool_decide (status <> TorrentProgressStatus.seeding)
       && (Torrent.numPeers torrent =? 0)
       && (NO_PEERS_TIMEOUT <? now - num_or (Torrent.addedDate torrent) 0)
    then (TorrentProgressStatus.no_peers,
          Torrent.set_noPeersReason
            (Some "No peers found after 60 seconds.") torrent)
    else (status, torrent) in
  (TorrentProgress.mk
     (Torrent.infoHash torrent)
     (Torrent.progress torrent)
     (Torrent.downloadSpeed torrent)
     (Torrent.uploadSpeed torrent)
     (Torrent.numPeers torrent)
     (Torrent.timeRemaining torrent)
     (Torrent.downloaded torrent)
     (Torrent.length torrent)
     (Torrent.customName torrent)
     (Torrent.addedDate torrent)
     (Torrent.itemId torrent)
     status
     (Torrent.noPeersReason torrent),
   torrent).

(** The status the classifier reports, and the torrent's stall clock after
    the call. *)
Definition classify (now : Z) (torrent : Torrent.t) : TorrentProgressStatus.t :=
  TorrentProgress.status (fst (getTorrentProgress now torrent)).

Definition lastProgressAfter (now : Z) (torrent : Torrent.t) : option Z :=
  Torrent.lastProgressTime (snd (getTorrentProgress now torrent)).


(** ** The service object and its surroundings *)

(** Events handed to [this.emit]. *)
Module Event.
Inductive t : Set :=
| progress (p : TorrentProgress.t)
| historyUpdated
| added (torrent : Torrent.t)
| done (torrent : Torrent.t)
| error (torrent : Torrent.t) (err : string)
| removed (infoHash : string).
End Event.

(** Lines written to the console: the message and what is printed after
    it. *)
Module Console.
Inductive t : Set :=
| log (msg detail : string)
| warn (msg detail : string)
| error (msg detail : string).
End Console.

(** The fields of [this] ([client] with its [torrents], [history],
    [progressInterval]) followed by the environment: the localStorage entry
    under [HISTORY_STORAGE_KEY] and whether the storage can be accessed at
    all, the clock, the events emitted and console lines written so far, the
    port the system hands to the next [listen(0)] and the file servers
    started. *)
Module Service.
Record t : Type := mk {
  client : option (list Torrent.t);
  history : list HistoryItem.t;
  progressInterval : bool;
  storageItem : option string;
  storageAccessible : bool;
  clock : Z;
  emitted : list Event.t;
  console : list Console.t;
  freePort : Z;
  servers : list (Z * TorrentFile.t)
}.

Definition with_client (v : option (list Torrent.t)) (s : t) : t :=
  mk v (history s) (progressInterval s) (storageItem s)
     (storageAccessible s) (clock s) (emitted s) (console s)
     (freePort s) (servers s).

Definition with_history (v : list HistoryItem.t) (s : t) : t :=
  mk (client s) v (progressInterval s) (storageItem s)
     (storageAccessible s) (clock s) (emitted s) (console s)
     (freePort s) (servers s).

Definition with_progressInterval (v : bool) (s : t) : t :=
  mk (client s) (history s) v (storageItem s)
     (storageAccessible s) (clock s) (emitted s) (console s)
     (freePort s) (servers s).

Definition with_storageItem (v : option string) (s : t) : t :=
  mk (client s) (history s) (progressInterval s) v
     (storageAccessible s) (clock s) (emitted s) (console s)
     (freePort s) (servers s).

Definition with_emitted (v : list Event.t) (s : t) : t :=
  mk (client s) (history s) (progressInterval s) (storageItem s)
     (storageAccessible s) (clock s) v (console s)
     (freePort s) (servers s).

Definition with_console (v : list Console.t) (s : t) : t :=
  mk (client s) (history s) (progressInterval s) (storageItem s)
     (storageAccessible s) (clock s) (emitted s) v
     (freePort s) (servers s).

Definition with_servers (v : list (Z * TorrentFile.t)) (s : t) : t :=
  mk (client s) (history s) (progressInterval s) (storageItem s)
     (storageAccessible s) (clock s) (emitted s) (console s)
     (freePort s) v.

Definition with_clock (v : Z) (s : t) : t :=
  mk (client s) (history s) (progressInterval s) (storageItem s)
     (storageAccessible s) v (emitted s) (console s)
     (freePort s) (servers s).
End Service.

(** ** Computations: state passing with exceptions *)

(** A method either returns or throws; what it assigned before throwing
    stays assigned. *)
Inductive Outcome (A : Type) : Type :=
| Returns (a : A)
| Throws (e : string).
Arguments Returns {A} a.
Arguments Throws {A} e.

Definition M (A : Type) : Type := Service.t -> Outcome A * Service.t.

#[global] Instance M_ret : MRet M := fun A a s => (Returns a, s).

#[global] Instance M_bind : MBind M := fun A B k c s =>
  match c s with
  | (Returns a, s') => k a s'
  | (Throws e, s') => (Throws e, s')
  end.

#[global] Instance M_throw : MThrow string M := fun A e s => (Throws e, s).

(** [try { body } catch (error) { handler }]. *)
Definition try_catch {A : Type} (body : M A) (handler : string -> M A) : M A :=
  fun s =>
    match body s with
    | (Returns a, s') => (Returns a, s')
    | (Throws e, s') => handler e s'
    end.

Definition gets {A : Type} (f : Service.t -> A) : M A :=
  fun s => (Returns (f s), s).

Definition modify (f : Service.t -> Service.t) : M unit :=
  fun s => (Returns tt, f s).

(** How a promise handed to the caller stands. *)
Inductive Promise (A : Type) : Type :=
| Resolved (a : A)
| Rejected (e : string)
| Pending.
Arguments Resolved {A} a.
Arguments Rejected {A} e.
Arguments Pending {A}.

(** ** Browser objects *)

Definition Date_now : M Z := gets Service.clock.

Definition emit (e : Event.t) : M unit :=
  modify (fun s => Service.with_emitted (Service.emitted s ++ [e]) s).

Definition console_write (line : Console.t) : M unit :=
  modify (fun s => Service.with_console (Service.console s ++ [line]) s).

(** [localStorage.getItem(HISTORY_STORAGE_KEY)]: [null] is [None]; a
    storage the page may not touch throws. *)
Definition localStorage_getItem : M (option string) :=
  fun s =>
    if Service.storageAccessible s
    then (Returns (Service.storageItem s), s)
    else (Throws "SecurityError", s).

Definition localStorage_setItem (value : string) : M unit :=
  fun s =>
    if Service.storageAccessible s
    then (Returns tt, Service.with_storageItem (Some value) s)
    else (Throws "SecurityError", s).

(** [forEach] over an array with an effectful callback. *)
Fixpoint forEach {A : Type} (f : A -> M unit) (l : list A) : M unit :=
  match l with
  | [] => mret tt
  | x :: l' => f x;; forEach f l'
  end.

(** [Array.prototype.reduce] without an initial value: the first element
    seeds the accumulator, and an empty array is a TypeError. *)
Definition reduce {A : Type} (f : A -> A -> A) (l : list A) : M A :=
  match l with
  | [] => mthrow "TypeError: Reduce of empty array with no initial value"
  | a :: l' => mret (fold_left f l' a)
  end.

(** [torrent.customName || torrent.name]. *)
Definition name_or (x : option string) (d : string) : string :=
  match x with
  | Some "" => d
  | Some s => s
  | None => d
  end.

(** ** Vocabulary of the statements *)


(** The records of a history with a given info hash. *)
Definition recordsFor (h : string) (history : list HistoryItem.t)
    : list HistoryItem.t :=
  filter (λ item, HistoryItem.infoHash item = h) history.

(** The record [findIndex] reaches for an info hash, with its index. *)
Definition recordOf (h : string) (history : list HistoryItem.t)
    : option (nat * HistoryItem.t) :=
  list_find (λ item, HistoryItem.infoHash item = h) history.

(** The no-peers condition of the classifier: no peer, and more than
    [NO_PEERS_TIMEOUT] since the torrent was added (since the epoch when the
    torrent has no [addedDate]). *)
Definition noPeersTimedOut (now : Z) (t : Torrent.t) : Prop :=
  Torrent.numPeers t = 0
  /\ NO_PEERS_TIMEOUT < now - default 0 (Torrent.addedDate t).

(** The state [addTorrent] leaves when the link is already active: the one
    console warning, nothing else. *)
Definition warned (magnetURI : string) (s : Service.t) : Service.t :=
  Service.with_console
    (Service.console s ++ [Console.warn "Torrent already added:" magnetURI]) s.

(** An upsert without an error message: [undefined], or the empty string,
    which [||] treats alike. *)
Definition noMessage (lastError : option string) : Prop :=
  lastError = None \/ lastError = Some "".

(** No two torrents of the active set share an info hash. *)
Definition activeUnique (torrents : list Torrent.t) : Prop :=
  NoDup (Torrent.infoHash <$> torrents).

(** No two records of the history share an info hash. *)
Definition historyUnique (history : list HistoryItem.t) : Prop :=
  NoDup (HistoryItem.infoHash <$> history).

(** The record a torrent gets when the history has none for it. *)
Definition isFreshRecord (toISO : Z -> string) (torrent : Torrent.t)
    (now : Z) (record : HistoryItem.t) : Prop :=
  HistoryItem.infoHash record = Torrent.infoHash torrent
  /\ HistoryItem.magnetURI record = Torrent.magnetURI torrent
  /\ HistoryItem.name record
     = name_or (Torrent.customName torrent) (Torrent.name torrent)
  /\ HistoryItem.itemId record = Torrent.itemId torrent
  /\ HistoryItem.addedDate record
     = toISO (default now (Torrent.addedDate torrent))
  /\ HistoryItem.completedDate record = None
  /\ HistoryItem.size record = Some (Torrent.length torrent).

(** What the engine may do to [client.torrents] between two calls of the
    service: it fills in and updates the torrents (metadata, name, files,
    readiness, counters), but does not change under which info hash each
    of them is found, nor their order. *)
Definition engineUpdate (torrents torrents' : list Torrent.t) : Prop :=
  Torrent.infoHash <$> torrents' = Torrent.infoHash <$> torrents.

(** The state a later call finds: the clock reads [now] and the engine has
    left [torrents'] in [client.torrents]; the rest is as the call before
    left it. *)
Definition meanwhile (now : Z) (torrents' : list Torrent.t) (s : Service.t)
    : Service.t :=
  Service.with_clock now (Service.with_client (Some torrents') s).

(** The state keeps its keys apart: one torrent for an info hash in the
    active set, one record for an info hash in the history. *)
Definition wellKeyed (s : Service.t) : Prop :=
  activeUnique (default [] (Service.client s))
  /\ historyUnique (Service.history s).

(** The calls the service takes: from its users, from the engine (the
    callback of [client.add]) and from its own timer. *)
Inductive Call : Type :=
| CallAdd (magnetURI : string) (itemName : option string)
          (itemId : option ItemId)
| CallOnTorrent (itemName : option string) (itemId : option ItemId)
                (h : string)
| CallTick
| CallPoll
| CallPause (infoHashOrMagnetURI : string)
| CallResume (infoHashOrMagnetURI : string)
| CallRemove (infoHashOrMagnetURI : string) (err : option string)
| CallStream (infoHashOrMagnetURI : string)
| CallClearHistory
| CallRemoveFromHistory (infoHash : string).

(** ** The listeners of the React context
    (src/contexts/WebTorrentContext.tsx)

    The state updaters the provider registers for the service's 'progress'
    and 'removed' events, as functions from the previous list of torrents
    to the next. *)

(** [onTorrentProgress]: replace the entry with the same [torrentId], or
    append. *)
Definition progressListener (progress : TorrentProgress.t)
    (prev : list TorrentProgress.t) : list TorrentProgress.t :=
  match list_find
          (λ t, TorrentProgress.torrentId t
                = TorrentProgress.torrentId progress) prev with
  | Some (index, _) => <[index := progress]> prev
  | None => prev ++ [progress]
  end.

(** [onTorrentRemoved]: drop the entries of that info hash. *)
Definition removedListener (infoHash : string)
    (prev : list TorrentProgress.t) : list TorrentProgress.t :=
  filter (λ t, TorrentProgress.torrentId t <> infoHash) prev.

(** The context's list of torrents after the service has emitted
    [events]: 'progress' and 'removed' reach the two listeners, the other
    events do not touch the list. *)
Definition torrentsAfter (events : list Event.t)
    (prev : list TorrentProgress.t) : list TorrentProgress.t :=
  fold_left
    (λ torrents event,
       match event with
       | Event.progress progress => progressListener progress torrents
       | Event.removed infoHash => removedListener infoHash torrents
       | _ => torrents
       end)
    events prev.

(** The entry of the context's list for a torrent id. *)
Definition entryOf (id : string) (torrents : list TorrentProgress.t)
    : option (nat * TorrentProgress.t) :=
  list_find (λ t, TorrentProgress.torrentId t = id) torrents.

(** ** Sample data

    Instances of the library functions and a few torrents, records and
    states, used to run the service on concrete inputs after the
    theorems. *)

Definition sample_toISOString (ms : Z) : string := "T+" +:+ pretty ms.

(** A torrent object with nothing on it but an info hash and a link: not
    ready, no peers, no name, and none of the service's fields. *)
Definition freshTorrent (hash uri : string) : Torrent.t :=
  Torrent.mk hash uri "" false false false 0 0 0 0 0 0 0 []
             None None None None None None.

Definition sample_stringify (h : list HistoryItem.t) : string :=
  "#" +:+ pretty (Z.of_nat (List.length h)).

Definition sample_parse (text : string) : option (list HistoryItem.t) :=
  if decide (text = "[]") then Some [] else None.

(** Reads "m:<hash>" and "#<hash>" as <hash>. *)
Definition sample_parseTorrent (torrentId : string) : option string :=
  match torrentId with
  | String "m"%char (String ":"%char h) => Some h
  | String "#"%char h => Some h
  | _ => None
  end.

(** A sample engine: it renders the link anew from the info hash it reads
    and gives the torrent a name of its own; the torrent starts not ready,
    without peers or files. *)
Definition sample_client_add (magnetURI : string) : Torrent.t :=
  let h := default "" (sample_parseTorrent magnetURI) in
  Torrent.mk h ("magnet:?xt=urn:btih:" +:+ h) ("torrent " +:+ h)
             false false false 0 0 0 0 0 0 0 []
             None None None None None None.

(** The time of the examples: a torrent added on 14 November 2023. *)
Definition t_added : Z := 1700000000000.

(** A torrent of the active set as the classifier sees it. *)
Definition snapshot (ready done paused : bool) (down up peers : Z)
    (added lastProgress : option Z) : Torrent.t :=
  Torrent.mk "ab12" "m:ab12" "film" ready done paused 0 down up peers 0 0 0
             [] None added None None lastProgress None.

(** Ready, paused, no peer. *)
Definition paused_alone : Torrent.t :=
  snapshot true false true 0 0 0 (Some t_added) (Some t_added).

(** Ready, paused, two peers. *)
Definition paused_peers : Torrent.t :=
  snapshot true false true 0 0 2 (Some t_added) (Some t_added).

(** Ready, downloading, three peers, nothing coming in since [t_added]. *)
Definition idle_peers : Torrent.t :=
  snapshot true false false 0 0 3 (Some t_added) (Some t_added).

(** Ready, downloading, no peer, nothing coming in since [t_added]. *)
Definition idle_alone : Torrent.t :=
  snapshot true false false 0 0 0 (Some t_added) (Some t_added).

(** File objects as the engine makes them, without [createServer]. *)
Definition file_a : TorrentFile.t := TorrentFile.mk "a.mkv" 700 false.
Definition file_c : TorrentFile.t := TorrentFile.mk "c.srt" 3 false.


(** A ready torrent "ab12" with the given files. *)
Definition with_files (files : list TorrentFile.t) : Torrent.t :=
  Torrent.mk "ab12" "m:ab12" "film" true false false 0 0 0 2 0 0 1403
             files None (Some t_added) None None (Some t_added) None.

(** Another torrent, "cd34". *)
Definition other_torrent : Torrent.t :=
  Torrent.mk "cd34" "m:cd34" "show" true false false 0 0 0 1 0 0 10
             [file_c] None (Some t_added) None None (Some t_added) None.

(** What the engine makes of a torrent once it has the metadata: ready,
    named, with its files and four peers; the service's fields are left
    alone. *)
Definition made_ready (t : Torrent.t) : Torrent.t :=
  Torrent.mk (Torrent.infoHash t) (Torrent.magnetURI t) "Sintel"
             true false false 0 0 0 4 0 0 703 [file_a; file_c]
             (Torrent.customName t) (Torrent.addedDate t) (Torrent.itemId t)
             (Torrent.statusForHistory t) (Torrent.lastProgressTime t)
             (Torrent.noPeersReason t).

(** A service whose client holds the given torrents and whose history holds
    the given records, one second after [t_added]. *)
Definition service_of (torrents : list Torrent.t)
    (history : list HistoryItem.t) (stored : option string) : Service.t :=
  Service.mk (Some torrents) history true stored true (t_added + 1000)
             [] [] 8080 [].

Definition record_done : HistoryItem.t :=
  HistoryItem.mk "ab12" "m:ab12" "film" None "T+1690000000000"
                 (Some "T+1690000100000") HistoryStatus.completed
                 (Some 1403) (Some "disk full").

(** The record of a download of "ab12" that failed. *)
Definition record_failed : HistoryItem.t :=
  HistoryItem.mk "ab12" "m:ab12" "film" None "T+1690000000000"
                 None HistoryStatus.error None (Some "tracker unreachable").

Definition record_other : HistoryItem.t :=
  HistoryItem.mk "cd34" "m:cd34" "show" None "T+1680000000000"
                 None HistoryStatus.active (Some 10) None.

(** A parser that reads back what [sample_stringify] writes for one known
    history. *)
Definition sample_parse_back (known : list HistoryItem.t) (text : string)
    : option (list HistoryItem.t) :=
  if decide (text = sample_stringify known) then Some known else None.

(** Progress entries of the context's list. *)
Definition entry (id : string) (peers : Z) : TorrentProgress.t :=
  TorrentProgress.mk id 0 0 0 peers 0 0 0 None None None
                     TorrentProgressStatus.downloading None.

(** A finished torrent that uploads, without peers in the count. *)
Definition seeding_alone : Torrent.t :=
  snapshot true true false 0 5 0 (Some t_added) (Some t_added).

(** A service with the torrents "ab12" and "cd34" and a record for each. *)
Definition service_two : Service.t :=
  service_of [with_files [file_a]; other_torrent]
             [record_other; record_done] None.

(** The same service when the page may not touch the storage. *)
Definition service_blocked : Service.t :=
  Service.mk (Some [with_files [file_a]; other_torrent])
             [record_other; record_done] true None false (t_added + 1000)
             [] [] 8080 [].

(** A service that has not been asked for its client yet. *)
Definition service_new : Service.t :=
  Service.mk None [] false None true t_added [] [] 8080 [].

(** ** The service *)

Section WebTorrentService.

(** [Date.prototype.toISOString], on the epoch-millisecond value. *)
Variable toISOString : Z -> string.

(** [JSON.stringify] and [JSON.parse] on the history array.  [JSON.parse]
    yields [None] where the source's call throws a SyntaxError; what it
    parses is taken at the declared type [HistoryItem[]]. *)
Variable JSON_stringify : list HistoryItem.t -> string.
Variable JSON_parse : string -> option (list HistoryItem.t).

(** The engine's reading of a torrent identifier (a magnet URI or an info
    hash) as an info hash; [None] where it is not one. *)
Variable parseTorrent : string -> option string.

(** The torrent object the engine's [client.add] creates for a link: its
    name, its own rendering of the link, its files and its first counters
    are the engine's to choose. *)
Variable client_add : string -> Torrent.t.

Definition JSON_parse_or_throw (text : string) : M (list HistoryItem.t) :=
  match JSON_parse text with
  | Some v => mret v
  | None => mthrow "SyntaxError"
  end.

Definition loadHistory : M unit :=
  try_catch
    (storedHistory ← localStorage_getItem;
     parsed ← match storedHistory with
              | None | Some "" => mret []
              | Some text => JSON_parse_or_throw text
              end;
     modify (Service.with_history parsed);;
     emit Event.historyUpdated)
    (λ error,
      console_write
        (Console.error "Failed to load or parse download history:" error);;
      modify (Service.with_history [])).

Definition saveHistory : M unit :=
  try_catch
    (history ← gets Service.history;
     localStorage_setItem (JSON_stringify history);;
     emit Event.historyUpdated)
    (λ error,
      console_write (Console.error "Failed to save download history:" error)).

(** [status || torrent.statusForHistory || 'active']: every status literal
    is a non-empty string, so only [undefined] falls through. *)
Definition newStatusOf (torrent : Torrent.t) (status : option HistoryStatus.t)
    : HistoryStatus.t :=
  match status with
  | Some st => st
  | None =>
      match Torrent.statusForHistory torrent with
      | Some st => st
      | None => HistoryStatus.active
      end
  end.

(** The object [updateHistory] stores over an existing record:
    [{ ...existing, status, completedDate, lastError, size }]. *)
Definition upserted (torrent : Torrent.t) (newStatus : HistoryStatus.t)
    (lastError : option string) (now : Z) (existing : HistoryItem.t)
    : HistoryItem.t :=
  HistoryItem.mk
    (HistoryItem.infoHash existing)
    (HistoryItem.magnetURI existing)
    (HistoryItem.name existing)
    (HistoryItem.itemId existing)
    (HistoryItem.addedDate existing)
    (if decide (newStatus = HistoryStatus.completed)
     then Some (toISOString now)
     else HistoryItem.completedDate existing)
    newStatus
    (Some (Torrent.length torrent))
    (str_or lastError (HistoryItem.lastError existing)).

Definition updateHistory (torrent : Torrent.t)
    (status : option HistoryStatus.t) (lastError : option string) : M unit :=
  history ← gets Service.history;
  let existingIndex :=
    list_find
      (λ item, HistoryItem.infoHash item = Torrent.infoHash torrent) history in
  let newStatus := newStatusOf torrent status in
  now ← Date_now;
  match existingIndex with
  | Some (i, existing) =>
      modify (Service.with_history
        (<[i := upserted torrent newStatus lastError now existing]>
           history))
  | None =>
      modify (Service.with_history
        (HistoryItem.mk
           (Torrent.infoHash torrent)
           (Torrent.magnetURI torrent)
           (name_or (Torrent.customName torrent) (Torrent.name torrent))
           (Torrent.itemId torrent)
           (toISOString (default now (Torrent.addedDate torrent)))
           None
           newStatus
           (Some (Torrent.length torrent))
           lastError
         :: history))
  end;;
  saveHistory.

(** A run of upserts, one call of [updateHistory] after the other. *)
Definition upsertAll
    (upserts : list (Torrent.t * option HistoryStatus.t * option string))
    : M unit :=
  forEach (λ '(torrent, status, lastError),
             updateHistory torrent status lastError) upserts.

Definition startProgressEmitter : M unit :=
  modify (Service.with_progressInterval true).

(** [getClient], once the engine module has been imported: the client is
    created on first use and the progress emitter started with it. *)
Definition getClient : M (list Torrent.t) :=
  client ← gets Service.client;
  match client with
  | Some torrents => mret torrents
  | None =>
      modify (Service.with_client (Some []));;
      startProgressEmitter;;
      mret []
  end.

(** [client.get(torrentId)]: the torrent of the active set whose info hash
    the identifier names. *)
Definition client_get (torrentId : string) (torrents : list Torrent.t)
    : option Torrent.t :=
  match parseTorrent torrentId with
  | Some h => snd <$> list_find (λ t, Torrent.infoHash t = h) torrents
  | None => None
  end.

(** The torrent as [client.add] leaves it in [client.torrents]: the
    engine's object for the link, found under the info hash [h] the link
    names, with none of the fields the service adds to the engine's type
    ([customName], [addedDate], [itemId], [statusForHistory],
    [lastProgressTime], [noPeersReason]). *)
Definition addedTorrent (h magnetURI : string) : Torrent.t :=
  let made := client_add magnetURI in
  Torrent.mk h (Torrent.magnetURI made) (Torrent.name made)
             (Torrent.ready made) (Torrent.done made) (Torrent.paused made)
             (Torrent.progress made) (Torrent.downloadSpeed made)
             (Torrent.uploadSpeed made) (Torrent.numPeers made)
             (Torrent.timeRemaining made) (Torrent.downloaded made)
             (Torrent.length made) (Torrent.files made)
             None None None None None None.

(** [addTorrent] up to the point where it hands the magnet link to the
    engine.  A link already in the active set resolves to [null] after a
    console warning.  Otherwise [client.add] puts a new torrent in the
    active set and the promise stays pending until the engine calls back
    ([addTorrent_ontorrent]); for a link the engine cannot read, the torrent
    reports an error, the early handler rejects the promise and removes the
    torrent again, which leaves the active set as it was. *)
Definition addTorrent (magnetURI : string) (itemName : option string)
    (itemId : option ItemId) : M (Promise (option Torrent.t)) :=
  torrents ← getClient;
  match client_get magnetURI torrents with
  | Some _ =>
      console_write (Console.warn "Torrent already added:" magnetURI);;
      mret (Resolved None)
  | None =>
      match parseTorrent magnetURI with
      | Some h =>
          modify (Service.with_client
                    (Some (torrents ++ [addedTorrent h magnetURI])));;
          mret Pending
      | None => mret (Rejected "Invalid torrent identifier")
      end
  end.

(** The callback given to [client.add], run by the engine on the torrent of
    the active set with info hash [h], with [itemName] and [itemId] as the
    closure captured them.  The torrent object is shared with the engine:
    the assignments are written back to the active set. *)
Definition addTorrent_ontorrent (itemName : option string)
    (itemId : option ItemId) (h : string) : M (Promise (option Torrent.t)) :=
  client ← gets Service.client;
  match client with
  | Some torrents =>
      match list_find (λ t, Torrent.infoHash t = h) torrents with
      | Some (i, torrentInstance) =>
          now ← Date_now;
          let enhancedTorrent :=
            Torrent.enhance itemName itemId now torrentInstance in
          modify (Service.with_client
                    (Some (<[i := enhancedTorrent]> torrents)));;
          console_write (Console.log "Torrent added:" h);;
          updateHistory enhancedTorrent (Some HistoryStatus.active) None;;
          emit (Event.added enhancedTorrent);;
          mret (Resolved (Some enhancedTorrent))
      | None => mret Pending
      end
  | None => mret Pending
  end.

(** One round of the progress emitter: every torrent of the active set is
    classified, keeps the fields the classifier assigned, and has its
    progress emitted. *)
Definition emitProgressAt (i : nat) : M unit :=
  client ← gets Service.client;
  match client with
  | Some torrents =>
      match torrents !! i with
      | Some torrent =>
          now ← Date_now;
          let '(p, torrent') := getTorrentProgress now torrent in
          modify (Service.with_client (Some (<[i := torrent']> torrents)));;
          emit (Event.progress p)
      | None => mret tt
      end
  | None => mret tt
  end.

Definition emitProgress : M unit :=
  client ← gets Service.client;
  match client with
  | Some torrents => forEach emitProgressAt (seq 0 (List.length torrents))
  | None => mret tt
  end.

(** [this.client?.get(id)]. *)
Definition getTorrent (infoHashOrMagnetURI : string) : M (option Torrent.t) :=
  client ← gets Service.client;
  mret (match client with
        | Some torrents => client_get infoHashOrMagnetURI torrents
        | None => None
        end).

(** [(file as any).createServer()] followed by [server.listen(0, ...)]: a
    server for [file] on the port the system hands out.  On a file object
    without the method the call is a TypeError, thrown inside the promise's
    executor, which rejects the promise. *)
Definition createServer_listen (file : TorrentFile.t) : M Z :=
  if TorrentFile.createServer file then
    port ← gets Service.freePort;
    modify (λ s, Service.with_servers
                   (Service.servers s ++ [(port, file)]) s);;
    mret port
  else mthrow "TypeError: file.createServer is not a function".

(** The callback of [reduce]: [a.length > b.length ? a : b]. *)
Definition larger (a b : TorrentFile.t) : TorrentFile.t :=
  if TorrentFile.length b <? TorrentFile.length a then a else b.

(** [getLargestFileForStreaming]; [None] is the [null] result.  A file
    object is never falsy, so the test [!file] does not fire. *)
Definition getLargestFileForStreaming (infoHashOrMagnetURI : string)
    : M (option (TorrentFile.t * string)) :=
  torrent ← getTorrent infoHashOrMagnetURI;
  match torrent with
  | None => mret None
  | Some torrent =>
      if negb (Torrent.ready torrent) then mret None
      else
        file ← reduce larger (Torrent.files torrent);
        port ← createServer_listen file;
        mret (Some (file, "http://localhost:" +:+ pretty port +:+ "/0"))
  end.

(** [getDownloadHistory]: a copy of the history array. *)
Definition getDownloadHistory : M (list HistoryItem.t) :=
  gets Service.history.

Definition clearHistory : M unit :=
  modify (Service.with_history []);;
  saveHistory.

Definition removeFromHistory (infoHash : string) : M unit :=
  history ← gets Service.history;
  modify (Service.with_history
            (filter (λ item, HistoryItem.infoHash item <> infoHash) history));;
  saveHistory.

(** [client.get(torrentId)] with the place of the torrent in
    [client.torrents], for the calls that go on to change the torrent or
    the array. *)
Definition client_find (torrentId : string) (torrents : list Torrent.t)
    : option (nat * Torrent.t) :=
  match parseTorrent torrentId with
  | Some h => list_find (λ t, Torrent.infoHash t = h) torrents
  | None => None
  end.

(** [getAllTorrentsProgress]: [getTorrentProgress] mapped over the active
    set, the torrents keeping what the classifier assigned; [[]] without a
    client. *)
Definition getAllTorrentsProgress : M (list TorrentProgress.t) :=
  client ← gets Service.client;
  match client with
  | Some torrents =>
      now ← Date_now;
      let results := map (getTorrentProgress now) torrents in
      modify (Service.with_client (Some (map snd results)));;
      mret (map fst results)
  | None => mret []
  end.

(** [removeTorrent].  [client.remove] takes the torrent out of
    [client.torrents] at once and destroys it; [err] is what the engine
    hands to the callback when the destruction is over. *)
Definition removeTorrent (infoHashOrMagnetURI : string) (err : option string)
    : M unit :=
  torrents ← getClient;
  match client_find infoHashOrMagnetURI torrents with
  | Some (i, torrent) =>
      updateHistory torrent (Some HistoryStatus.removed) None;;
      modify (Service.with_client (Some (delete i torrents)));;
      match err with
      | Some e => console_write (Console.error "Error removing torrent:" e)
      | None => emit (Event.removed (Torrent.infoHash torrent))
      end
  | None => mret tt
  end.

(** [pauseTorrent]; the engine's [pause()] sets the torrent's [paused]. *)
Definition pauseTorrent (infoHashOrMagnetURI : string) : M unit :=
  client ← gets Service.client;
  match client with
  | Some torrents =>
      match client_find infoHashOrMagnetURI torrents with
      | Some (i, torrent) =>
          if negb (Torrent.paused torrent) then
            let torrent :=
              Torrent.set_statusForHistory (Some HistoryStatus.paused)
                (Torrent.set_paused true torrent) in
            modify (Service.with_client (Some (<[i := torrent]> torrents)));;
            updateHistory torrent None None
          else mret tt
      | None => mret tt
      end
  | None => mret tt
  end.

(** [resumeTorrent]; the engine's [resume()] clears the torrent's
    [paused]. *)
Definition resumeTorrent (infoHashOrMagnetURI : string) : M unit :=
  client ← gets Service.client;
  match client with
  | Some torrents =>
      match client_find infoHashOrMagnetURI torrents with
      | Some (i, torrent) =>
          if Torrent.paused torrent then
            let torrent :=
              Torrent.set_statusForHistory (Some HistoryStatus.active)
                (Torrent.set_paused false torrent) in
            modify (Service.with_client (Some (<[i := torrent]> torrents)));;
            updateHistory torrent None None
          else mret tt
      | None => mret tt
      end
  | None => mret tt
  end.

(** A call run for its effect on the service. *)
Definition perform (call : Call) : M unit :=
  match call with
  | CallAdd magnetURI itemName itemId =>
      addTorrent magnetURI itemName itemId;; mret tt
  | CallOnTorrent itemName itemId h =>
      addTorrent_ontorrent itemName itemId h;; mret tt
  | CallTick => emitProgress
  | CallPoll => getAllTorrentsProgress;; mret tt
  | CallPause id => pauseTorrent id
  | CallResume id => resumeTorrent id
  | CallRemove id err => removeTorrent id err
  | CallStream id => getLargestFileForStreaming id;; mret tt
  | CallClearHistory => clearHistory
  | CallRemoveFromHistory infoHash => removeFromHistory infoHash
  end.

(** A run of calls, each served in the state the one before left, whether
    that one returned or threw: a rejected promise or an exception in a
    handler does not stop the service. *)
Definition serve (calls : list Call) (s : Service.t) : Service.t :=
  fold_left (λ s call, snd (perform call s)) calls s.

(** ** Properties of the status classifier *)

Lemma num_or_zero (x : option Z) : num_or x 0 = default 0 x.
Proof.
  destruct x as [v|]; simpl; [|reflexivity].
  destruct (Z.eqb_spec v 0); congruence.
Qed.

Lemma num_or_truthy (v d : Z) : v <> 0 -> num_or (Some v) d = v.
Proof. intros Hv. simpl. destruct (Z.eqb_spec v 0); congruence. Qed.

(** Settle a comparison of two statuses once both are known. *)
Ltac decide_status P :=
  first
    [ rewrite (bool_decide_eq_true_2 P) by congruence
    | rewrite (bool_decide_eq_false_2 P)
        by (congruence || (let H := fresh in intros H; apply H; reflexivity)) ].

Ltac classifier_step :=
  match goal with
  | |- context [bool_decide ?P] => decide_status P
  | |- context [if Torrent.ready ?t then _ else _] =>
      destruct (Torrent.ready t) eqn:?
  | |- context [if Torrent.done ?t then _ else _] =>
      destruct (Torrent.done t) eqn:?
  | |- context [if Torrent.paused ?t then _ else _] =>
      destruct (Torrent.paused t) eqn:?
  | |- context [Z.eqb ?a ?b] => destruct (Z.eqb_spec a b); try lia
  | |- context [Z.ltb ?a ?b] => destruct (Z.ltb_spec a b); try lia
  end.

(** Walk through [getTorrentProgress] test by test. *)
Ltac classifier :=
  unfold classify, lastProgressAfter, getTorrentProgress,
         STALL_TIMEOUT, NO_PEERS_TIMEOUT in *;
  repeat (cbn [andb negb fst snd TorrentProgress.status
               TorrentProgress.noPeersReason
               Torrent.lastProgressTime Torrent.noPeersReason
               Torrent.set_lastProgressTime Torrent.set_noPeersReason
               Torrent.numPeers Torrent.addedDate Torrent.downloadSpeed];
          rewrite ?num_or_zero; try classifier_step).

(** The not-ready case in full.  A torrent the engine reports not ready is
    classified [metadata], unless the no-peers test, which comes last and
    spares only [done] and [seeding], turns the status into [no_peers]. *)
Lemma not_ready_cases (now : Z) (t : Torrent.t) :
  Torrent.ready t = false ->
  (noPeersTimedOut now t ->
     classify now t = TorrentProgressStatus.no_peers) /\
  (~ noPeersTimedOut now t ->
     classify now t = TorrentProgressStatus.metadata).
Proof.
  intros Hready. unfold noPeersTimedOut.
  split; intros H; classifier; try reflexivity; try congruence; lia.
Qed.

(** C2, a defect of the code.  From [client.add] until the engine's
    callback a torrent is not ready and has no [addedDate] yet, and the
    no-peers test takes its age from the epoch
    ([addedDate?.getTime() || 0]).  So at every reading of the clock past
    the first minute of 1970 such a torrent, while it has no peer, is
    classified [no_peers] and not [metadata], with the reason "No peers
    found after 60 seconds.", however short a time it has been in the
    active set; once it has a peer it is classified [metadata]. *)
Theorem classify_before_callback (now : Z) (t : Torrent.t) :
  Torrent.ready t = false ->
  Torrent.addedDate t = None ->
  NO_PEERS_TIMEOUT < now ->
  (Torrent.numPeers t = 0 ->
     classify now t = TorrentProgressStatus.no_peers
     /\ TorrentProgress.noPeersReason (fst (getTorrentProgress now t))
        = Some "No peers found after 60 seconds.")
  /\ (Torrent.numPeers t <> 0 ->
     classify now t = TorrentProgressStatus.metadata).
Proof.
  intros Hready Hadded Hnow.
  split; intros Hpeers; [split|]; classifier;
    try reflexivity; try congruence;
    rewrite Hadded in *; cbv [default from_option id] in *; lia.
Qed.

(** C3, as amended.  A ready, unfinished, paused torrent is classified
    [paused], unless it has no peer and more than 60 seconds have passed
    since it was added, in which case it is classified [no_peers]. *)
Theorem classify_paused (now : Z) (t : Torrent.t) :
  Torrent.ready t = true ->
  Torrent.done t = false ->
  Torrent.paused t = true ->
  (noPeersTimedOut now t ->
     classify now t = TorrentProgressStatus.no_peers) /\
  (~ noPeersTimedOut now t ->
     classify now t = TorrentProgressStatus.paused).
Proof.
  intros Hready Hdone Hpaused. unfold noPeersTimedOut.
  split; intros H; classifier; try reflexivity; try congruence; lia.
Qed.

(** C4.  Ready, not done, not paused, three peers, download rate zero: 31
    seconds after the last progress the torrent is [stalled], 29 seconds
    after it the torrent is [downloading].  The last progress time is one
    the service stored, a reading of [Date.now()], which is not 0 (through
    [lastProgressTime || now] a stored 0 would count as no reading). *)
Theorem classify_stall_threshold (now lastProgress : Z) (t : Torrent.t) :
  Torrent.ready t = true ->
  Torrent.done t = false ->
  Torrent.paused t = false ->
  Torrent.numPeers t = 3 ->
  Torrent.downloadSpeed t = 0 ->
  Torrent.lastProgressTime t = Some lastProgress ->
  lastProgress <> 0 ->
  (now - lastProgress = 31000 ->
     classify now t = TorrentProgressStatus.stalled) /\
  (now - lastProgress = 29000 ->
     classify now t = TorrentProgressStatus.downloading).
Proof.
  intros Hready Hdone Hpaused Hpeers Hspeed Hlast Hnz.
  split; intros H; classifier;
    rewrite ?Hlast, ?num_or_truthy in * by assumption;
    try reflexivity; try congruence; lia.
Qed.

(** C5.  Ready, not done, not paused, no peer: 61 seconds after the torrent
    was added it is classified [no_peers] and the progress carries the
    reason "No peers found after 60 seconds."; 59 seconds after, it is not
    classified [no_peers]. *)
Theorem classify_no_peers_threshold (now added : Z) (t : Torrent.t) :
  Torrent.ready t = true ->
  Torrent.done t = false ->
  Torrent.paused t = false ->
  Torrent.numPeers t = 0 ->
  Torrent.addedDate t = Some added ->
  (now - added = 61000 ->
     classify now t = TorrentProgressStatus.no_peers /\
     TorrentProgress.noPeersReason (fst (getTorrentProgress now t))
       = Some "No peers found after 60 seconds." /\
     "No peers found after 60 seconds." <> "") /\
  (now - added = 59000 ->
     classify now t <> TorrentProgressStatus.no_peers).
Proof.
  intros Hready Hdone Hpaused Hpeers Hadded.
  split; intros H; [split; [|split; [|discriminate]] |];
    classifier; rewrite ?Hadded in *; cbv [default from_option id] in *;
    try reflexivity; try congruence; lia.
Qed.

(** C6, as amended.  One call of the classifier sets [lastProgressTime] to
    the current time exactly when the torrent is ready, not done, not paused
    and it is not the case that its download rate is zero while it has
    peers; in every other case, so whenever the download rate is zero and
    there are peers, the field keeps its value. *)
Theorem lastProgress_refresh (now : Z) (t : Torrent.t) :
  lastProgressAfter now t =
    if Torrent.ready t && negb (Torrent.done t) && negb (Torrent.paused t)
       && negb ((Torrent.downloadSpeed t =? 0) && (0 <? Torrent.numPeers t))
    then Some now
    else Torrent.lastProgressTime t.
Proof.
  classifier; reflexivity.
Qed.

(** Unfold the plumbing of a computation, leaving the tests it makes. *)
Ltac run :=
  cbv [mbind M_bind mret M_ret mthrow M_throw gets modify try_catch
       Date_now emit console_write localStorage_getItem localStorage_setItem
       JSON_parse_or_throw].

(** One step of the progress emitter: the torrent at [i] is replaced by
    the torrent the classifier leaves, and its progress is emitted. *)
Lemma emitProgressAt_step (s : Service.t) (torrents : list Torrent.t)
    (i : nat) (t : Torrent.t) :
  Service.client s = Some torrents ->
  torrents !! i = Some t ->
  emitProgressAt i s
  = (Returns tt,
     Service.with_emitted
       (Service.emitted s
        ++ [Event.progress (fst (getTorrentProgress (Service.clock s) t))])
       (Service.with_client
          (Some (<[i := snd (getTorrentProgress (Service.clock s) t)]>
                   torrents)) s)).
Proof.
  intros Hclient Hat. unfold emitProgressAt. run.
  rewrite Hclient, Hat.
  destruct (getTorrentProgress (Service.clock s) t) as [p t']. reflexivity.
Qed.

(** ** Properties of the history store *)

(** [saveHistory] never throws and leaves [this.history] alone. *)
Lemma saveHistory_returns (s : Service.t) :
  exists s', saveHistory s = (Returns tt, s')
    /\ Service.history s' = Service.history s
    /\ Service.client s' = Service.client s
    /\ Service.clock s' = Service.clock s.
Proof.
  unfold saveHistory. run.
  destruct (Service.storageAccessible s); eexists; (split; [reflexivity|]);
    repeat split.
Qed.

Lemma updateHistory_existing (torrent : Torrent.t)
    (status : option HistoryStatus.t) (lastError : option string)
    (s : Service.t) (i : nat) (existing : HistoryItem.t) :
  list_find (λ item, HistoryItem.infoHash item = Torrent.infoHash torrent)
            (Service.history s) = Some (i, existing) ->
  exists s', updateHistory torrent status lastError s = (Returns tt, s')
    /\ Service.history s'
       = <[i := upserted torrent (newStatusOf torrent status) lastError
                  (Service.clock s) existing]>
           (Service.history s)
    /\ Service.client s' = Service.client s.
Proof.
  intros Hfind. unfold updateHistory.
  unfold mbind at 1, M_bind, gets. rewrite Hfind. run.
  match goal with
  | |- context [saveHistory ?s1] =>
      destruct (saveHistory_returns s1) as (s' & Hsave & Hh & Hc & _)
  end.
  rewrite Hsave. exists s'. split; [reflexivity|].
  rewrite Hh, Hc. split; reflexivity.
Qed.

(** An upsert for an info hash the history does not hold puts one new
    record in front. *)
Lemma updateHistory_fresh (torrent : Torrent.t)
    (status : option HistoryStatus.t) (lastError : option string)
    (s : Service.t) :
  list_find (λ item, HistoryItem.infoHash item = Torrent.infoHash torrent)
            (Service.history s) = None ->
  exists s' created,
    updateHistory torrent status lastError s = (Returns tt, s')
    /\ Service.history s' = created :: Service.history s
    /\ HistoryItem.infoHash created = Torrent.infoHash torrent
    /\ HistoryItem.status created = newStatusOf torrent status
    /\ Service.client s' = Service.client s.
Proof.
  intros Hfind. unfold updateHistory.
  unfold mbind at 1, M_bind, gets. rewrite Hfind. run.
  match goal with
  | |- context [saveHistory ?s1] =>
      destruct (saveHistory_returns s1) as (s' & Hsave & Hh & Hc & _)
  end.
  rewrite Hsave. eexists s', _. split; [reflexivity|].
  rewrite Hh, Hc. repeat split.
Qed.

(** C7.  An upsert onto an existing record returns normally, replaces that
    record in place and gives it the new status; the record's
    [completedDate] becomes the current time when the new status is
    [completed], and keeps the value it had for every other new status. *)
Theorem updateHistory_completedDate (torrent : Torrent.t)
    (status : option HistoryStatus.t) (lastError : option string)
    (s : Service.t) (i : nat) (existing : HistoryItem.t) :
  recordOf (Torrent.infoHash torrent) (Service.history s)
  = Some (i, existing) ->
  exists s' updated,
    updateHistory torrent status lastError s = (Returns tt, s')
    /\ Service.history s' = <[i := updated]> (Service.history s)
    /\ Service.history s' !! i = Some updated
    /\ HistoryItem.status updated = newStatusOf torrent status
    /\ (newStatusOf torrent status = HistoryStatus.completed ->
          HistoryItem.completedDate updated
          = Some (toISOString (Service.clock s)))
    /\ (newStatusOf torrent status <> HistoryStatus.completed ->
          HistoryItem.completedDate updated
          = HistoryItem.completedDate existing).
Proof.
  intros Hfind.
  destruct (updateHistory_existing torrent status lastError s i existing Hfind)
    as (s' & Hrun & Hhist & _).
  apply list_find_Some in Hfind as (Hi & _ & _).
  apply lookup_lt_Some in Hi.
  eexists s', _. split; [exact Hrun|]. split; [exact Hhist|].
  split; [rewrite Hhist; apply list_lookup_insert_eq; exact Hi|].
  split; [reflexivity|].
  unfold upserted; cbn [HistoryItem.completedDate].
  split; intros Hst; case_decide; congruence.
Qed.

(** One upsert without an error message, for any torrent: the record
    reached for the info hash [h] keeps its [lastError], and keeps its place
    when the upsert is for [h] itself. *)
Lemma updateHistory_lastError_step (torrent : Torrent.t)
    (status : option HistoryStatus.t) (lastError : option string)
    (s : Service.t) (h : string) (i : nat) (existing : HistoryItem.t) :
  noMessage lastError ->
  recordOf h (Service.history s) = Some (i, existing) ->
  exists s' i' kept,
    updateHistory torrent status lastError s = (Returns tt, s')
    /\ recordOf h (Service.history s') = Some (i', kept)
    /\ HistoryItem.lastError kept = HistoryItem.lastError existing
    /\ (Torrent.infoHash torrent = h -> i' = i).
Proof.
  unfold recordOf. intros Hnone Hrec.
  pose proof Hrec as (Hi & Hhash & Hleast)%list_find_Some.
  destruct (list_find
              (λ item, HistoryItem.infoHash item = Torrent.infoHash torrent)
              (Service.history s)) as [[j ex]|] eqn:Hfind.
  - destruct (updateHistory_existing torrent status lastError s j ex Hfind)
      as (s' & Hrun & Hhist & _).
    set (updated := upserted _ _ _ _ _) in Hhist.
    assert (HistoryItem.infoHash updated = HistoryItem.infoHash ex) as Hupd
      by reflexivity.
    pose proof Hfind as (Hj & Hjhash & _)%list_find_Some.
    destruct (decide (Torrent.infoHash torrent = h)) as [Heq | Hne].
    + rewrite Heq in Hfind. rewrite Hfind in Hrec. injection Hrec as -> ->.
      exists s', i, updated. split; [exact Hrun|]. rewrite Hhist.
      split; [|split; [|reflexivity]].
      * apply list_find_insert_Some. right. left.
        apply lookup_lt_Some in Hi. split; [reflexivity|].
        split; [reflexivity|]. split; [exact Hi|]. split; [|exact Hleast].
        congruence.
      * subst updated. cbn [upserted HistoryItem.lastError].
        destruct Hnone as [-> | ->]; reflexivity.
    + exists s', i, existing. split; [exact Hrun|]. rewrite Hhist.
      split; [|split; [reflexivity | reflexivity]].
      assert (i <> j) as Hij by (intros ->; congruence).
      apply list_find_insert_Some.
      destruct (Nat.lt_total i j) as [Hlt | [Heq | Hgt]]; [|congruence|].
      * left. split; [exact Hlt | exact Hrec].
      * right. right. left. split; [exact Hgt|]. split; [congruence|].
        split; [exact Hrec|]. intros z Hz. congruence.
  - destruct (updateHistory_fresh torrent status lastError s Hfind)
      as (s' & created & Hrun & Hhist & Hcreated & _).
    exists s', (S i), existing. split; [exact Hrun|]. rewrite Hhist.
    assert (Torrent.infoHash torrent <> h) as Hne.
    { intros Heq. rewrite Heq in Hfind. congruence. }
    split; [|split; [reflexivity | congruence]].
    cbn [list_find]. rewrite decide_False by congruence.
    rewrite Hrec. reflexivity.
Qed.

(** C10.  Through any run of upserts that bring no error message
    ([undefined] or the empty string), whatever their torrents and
    statuses, the record of the info hash [h] keeps the [lastError] it had;
    every call returns normally.  A single upsert onto the record is the run
    of length one. *)
Theorem updateHistory_keeps_lastError
    (upserts : list (Torrent.t * option HistoryStatus.t * option string))
    (s : Service.t) (h : string) (i : nat) (existing : HistoryItem.t) :
  Forall (λ u, noMessage (snd u)) upserts ->
  recordOf h (Service.history s) = Some (i, existing) ->
  exists s' i' kept,
    upsertAll upserts s = (Returns tt, s')
    /\ recordOf h (Service.history s') = Some (i', kept)
    /\ HistoryItem.lastError kept = HistoryItem.lastError existing.
Proof.
  intros Hall. revert s i existing.
  induction Hall as [|[[torrent status] lastError] upserts Hnone _ IH];
    intros s i existing Hrec.
  - exists s, i, existing. repeat split. exact Hrec.
  - destruct (updateHistory_lastError_step torrent status lastError s h i
                existing Hnone Hrec)
      as (s1 & i1 & kept1 & Hrun & Hrec1 & Herr1 & _).
    destruct (IH s1 i1 kept1 Hrec1) as (s' & i' & kept & Hrest & Hrec' & Herr').
    exists s', i', kept. split; [|split; [exact Hrec' | congruence]].
    unfold upsertAll in *. cbn [forEach]. run. rewrite Hrun. exact Hrest.
Qed.

(** [loadHistory] returns normally from every state. *)
Lemma loadHistory_returns (s : Service.t) :
  exists s', loadHistory s = (Returns tt, s').
Proof.
  unfold loadHistory. run.
  destruct (Service.storageAccessible s); [|eauto].
  destruct (Service.storageItem s) as [[|c text]|]; [eauto| |eauto].
  destruct (JSON_parse (String c text)); eauto.
Qed.

(** C9.  When the stored payload is absent, or is text that [JSON.parse]
    rejects, [loadHistory] returns normally with an empty history; the
    client is untouched, and a rejected payload is reported on the console
    (an empty payload is never handed to the parser). *)
Theorem loadHistory_unreadable (s : Service.t) :
  Service.storageItem s = None
  \/ (exists text, Service.storageItem s = Some text
                   /\ JSON_parse text = None) ->
  exists s',
    loadHistory s = (Returns tt, s')
    /\ Service.history s' = []
    /\ Service.client s' = Service.client s
    /\ (forall text,
          Service.storageAccessible s = true ->
          Service.storageItem s = Some text -> text <> "" ->
          Service.console s'
          = Service.console s
            ++ [Console.error "Failed to load or parse download history:"
                              "SyntaxError"]).
Proof.
  intros Hbad. unfold loadHistory. run.
  destruct (Service.storageAccessible s) eqn:Hacc.
  - destruct Hbad as [Hnone | (text & Hsome & Hparse)].
    + rewrite Hnone. eexists. split; [reflexivity|].
      repeat split. intros text _ Htext. discriminate.
    + rewrite Hsome. destruct text as [|c text].
      * eexists. split; [reflexivity|]. repeat split.
        intros text _ Htext Hne. congruence.
      * rewrite Hparse. eexists. split; [reflexivity|]. repeat split.
  - eexists. split; [reflexivity|]. repeat split.
    intros text Habs. discriminate.
Qed.

(** ** Properties of [addTorrent] *)

Lemma recordsFor_nil_find (h : string) (history : list HistoryItem.t) :
  recordsFor h history = [] ->
  list_find (λ item, HistoryItem.infoHash item = h) history = None.
Proof.
  intros Hnil. apply list_find_None, Forall_forall. intros x Hx HP.
  exact (filter_nil_not_elem_of _ _ x Hnil HP Hx).
Qed.

Lemma addTorrent_present (magnetURI : string) (itemName : option string)
    (itemId : option ItemId) (s : Service.t)
    (torrents : list Torrent.t) (existing : Torrent.t) :
  Service.client s = Some torrents ->
  client_get magnetURI torrents = Some existing ->
  addTorrent magnetURI itemName itemId s
  = (Returns (Resolved None), warned magnetURI s).
Proof.
  intros Hclient Hget. unfold addTorrent, getClient. run.
  rewrite Hclient, Hget. reflexivity.
Qed.

(** Whatever the state, after [addTorrent] of a link the engine reads as
    [h] the active set holds a torrent with that info hash, and the history
    is as before. *)
Lemma addTorrent_makes_active (magnetURI h : string)
    (itemName : option string) (itemId : option ItemId) (s : Service.t) :
  parseTorrent magnetURI = Some h ->
  exists torrents i t,
    Service.client (snd (addTorrent magnetURI itemName itemId s))
      = Some torrents
    /\ list_find (λ t, Torrent.infoHash t = h) torrents = Some (i, t)
    /\ Service.history (snd (addTorrent magnetURI itemName itemId s))
       = Service.history s.
Proof.
  intros Hparse. unfold addTorrent, getClient, startProgressEmitter, client_get.
  run. rewrite Hparse.
  destruct (Service.client s) as [torrents|] eqn:Hclient; cbn.
  - destruct (list_find _ torrents) as [[i t]|] eqn:Hfind; cbn.
    + exists torrents, i, t. rewrite Hclient. repeat split. exact Hfind.
    + eexists _, _, _. split; [reflexivity|]. split; [|reflexivity].
      rewrite list_find_app_r by exact Hfind. cbn.
      rewrite decide_True by reflexivity. reflexivity.
  - eexists _, _, _. split; [reflexivity|]. split; [|reflexivity].
    cbn. rewrite decide_True by reflexivity. reflexivity.
Qed.

(** Replacing the record [findIndex] reaches by one with the same info hash
    keeps the number of records of that info hash, which is at least one. *)
Lemma recordsFor_replace (h : string) (history : list HistoryItem.t)
    (i : nat) (existing new : HistoryItem.t) :
  recordOf h history = Some (i, existing) ->
  HistoryItem.infoHash new = h ->
  List.length (recordsFor h (<[i := new]> history))
  = List.length (recordsFor h history)
  /\ (1 <= List.length (recordsFor h history))%nat.
Proof.
  intros (Hi & Hh & _)%list_find_Some Hnew.
  assert (<[i := new]> history = take i history ++ new :: drop (S i) history)
    as Hins by (apply insert_take_drop, (lookup_lt_Some _ _ _ Hi)).
  pose proof (take_drop_middle history i existing Hi) as Hsplit.
  revert Hins Hsplit.
  generalize (take i history) (drop (S i) history). intros pre post -> <-.
  unfold recordsFor.
  rewrite !filter_app, !filter_cons_True by assumption.
  rewrite !length_app. cbn [List.length]. lia.
Qed.

Lemma recordsFor_absent (h : string) (history : list HistoryItem.t) :
  list_find (λ item, HistoryItem.infoHash item = h) history = None ->
  recordsFor h history = [].
Proof.
  intros Hnone%list_find_None. unfold recordsFor.
  induction Hnone as [|x l Hx _ IH]; [reflexivity|].
  rewrite filter_cons_False by exact Hx. exact IH.
Qed.

(** What the engine does between two calls does not move the torrent an
    info hash finds. *)
Lemma engineUpdate_find (h : string) (torrents torrents' : list Torrent.t)
    (i : nat) (t : Torrent.t) :
  engineUpdate torrents torrents' ->
  list_find (λ t, Torrent.infoHash t = h) torrents = Some (i, t) ->
  exists t', list_find (λ t, Torrent.infoHash t = h) torrents' = Some (i, t').
Proof.
  unfold engineUpdate. intros Hup (Hi & Hh & Hleast)%list_find_Some.
  assert ((Torrent.infoHash <$> torrents') !! i = Some (Torrent.infoHash t))
    as Hi' by (rewrite Hup, list_lookup_fmap, Hi; reflexivity).
  rewrite list_lookup_fmap in Hi'.
  destruct (torrents' !! i) as [t'|] eqn:Ht'; [|discriminate].
  injection Hi' as Hi'.
  exists t'. apply list_find_Some. split; [exact Ht'|].
  split; [congruence|].
  intros j y Hj Hlt Hy.
  assert ((Torrent.infoHash <$> torrents) !! j = Some (Torrent.infoHash y))
    as Hx by (rewrite <- Hup, list_lookup_fmap, Hj; reflexivity).
  rewrite list_lookup_fmap in Hx.
  destruct (torrents !! j) as [x|] eqn:Hxj; [|discriminate].
  injection Hx as Hx.
  apply (Hleast j x Hxj Hlt). congruence.
Qed.

(** The engine's callback keeps the torrent in the active set and upserts
    its history record: a history without a record of the info hash gets
    one, a history with records of it keeps their number. *)
Lemma ontorrent_upserts (itemName : option string) (itemId : option ItemId)
    (h : string) (s : Service.t) (torrents : list Torrent.t) (i : nat)
    (t : Torrent.t) :
  Service.client s = Some torrents ->
  list_find (λ t, Torrent.infoHash t = h) torrents = Some (i, t) ->
  exists t',
    Service.client (snd (addTorrent_ontorrent itemName itemId h s))
      = Some (<[i := t']> torrents)
    /\ Torrent.infoHash t' = h
    /\ List.length
         (recordsFor h
            (Service.history (snd (addTorrent_ontorrent itemName itemId h s))))
       = Nat.max 1 (List.length (recordsFor h (Service.history s))).
Proof.
  intros Hclient Hfind.
  pose proof Hfind as (_ & Hhash & _)%list_find_Some.
  unfold addTorrent_ontorrent. run. rewrite Hclient, Hfind. run.
  set (enhanced := Torrent.enhance itemName itemId (Service.clock s) t).
  assert (Torrent.infoHash enhanced = h) as Henh by exact Hhash.
  set (s1 := Service.with_console _ _).
  assert (Service.history s1 = Service.history s) as Hs1 by reflexivity.
  destruct (list_find
              (λ item, HistoryItem.infoHash item = Torrent.infoHash enhanced)
              (Service.history s1)) as [[j existing]|] eqn:Hrec.
  - destruct (updateHistory_existing enhanced (Some HistoryStatus.active) None
                s1 j existing Hrec) as (s' & Hrun & Hh & Hc).
    rewrite Hrun.
    cbn [fst snd Service.client Service.history Service.with_emitted].
    exists enhanced. rewrite Hc.
    split; [reflexivity|]. split; [exact Henh|].
    rewrite Henh in Hrec. pose proof Hrec as (_ & Hex & _)%list_find_Some.
    rewrite Hh, Hs1 in *.
    destruct (recordsFor_replace h (Service.history s) j existing
                (upserted enhanced
                   (newStatusOf enhanced (Some HistoryStatus.active)) None
                   (Service.clock s1) existing) Hrec Hex) as [-> Hone].
    lia.
  - destruct (updateHistory_fresh enhanced (Some HistoryStatus.active) None
                s1 Hrec) as (s' & created & Hrun & Hh & Hi & _ & Hc).
    rewrite Hrun.
    cbn [fst snd Service.client Service.history Service.with_emitted].
    exists enhanced. rewrite Hc.
    split; [reflexivity|]. split; [exact Henh|].
    rewrite Hh, Hs1.
    rewrite Henh in Hrec, Hi. unfold recordsFor.
    rewrite filter_cons_True by exact Hi.
    fold (recordsFor h (Service.history s)).
    rewrite Hs1 in Hrec.
    rewrite (recordsFor_absent h (Service.history s) Hrec). reflexivity.
Qed.

(** C1, as amended.  For a link the engine reads as [h]:
    - when the link is already in the active set, [addTorrent] resolves to
      [null] and changes nothing but the console, where it leaves a warning:
      the active set, the progress emitter, the history, the stored payload
      and the emitted events are as before;
    - hence a second [addTorrent] of the same link resolves to [null] and
      changes nothing else, whether it is made right after the first or
      later, after the engine, having worked on the torrents, has run the
      callback of the first and worked on them again; and the two calls
      never add a second record: the history ends with one record of [h]
      when it held none or one at the start, and with as many as it held
      otherwise. *)
Theorem addTorrent_idempotent (magnetURI h : string)
    (itemName itemName' : option string) (itemId itemId' : option ItemId)
    (s : Service.t) :
  parseTorrent magnetURI = Some h ->
  (forall torrents existing,
     Service.client s = Some torrents ->
     client_get magnetURI torrents = Some existing ->
     addTorrent magnetURI itemName itemId s
     = (Returns (Resolved None), warned magnetURI s))
  /\ (let s1 := snd (addTorrent magnetURI itemName itemId s) in
      addTorrent magnetURI itemName' itemId' s1
      = (Returns (Resolved None), warned magnetURI s1)
      /\ forall now1 torrents1,
           engineUpdate (default [] (Service.client s1)) torrents1 ->
           let s2 := snd (addTorrent_ontorrent itemName itemId h
                            (meanwhile now1 torrents1 s1)) in
           forall now2 torrents2,
             engineUpdate (default [] (Service.client s2)) torrents2 ->
             let s3 := meanwhile now2 torrents2 s2 in
             addTorrent magnetURI itemName' itemId' s3
             = (Returns (Resolved None), warned magnetURI s3)
             /\ List.length
                  (recordsFor h (Service.history (warned magnetURI s3)))
                = Nat.max 1 (List.length (recordsFor h (Service.history s)))).
Proof.
  intros Hparse. split.
  { intros torrents existing. apply addTorrent_present. }
  destruct (addTorrent_makes_active magnetURI h itemName itemId s Hparse)
    as (torrents0 & i & t & Hclient0 & Hfind0 & Hhist0).
  cbv zeta. split.
  { apply (addTorrent_present _ _ _ _ torrents0 t Hclient0).
    unfold client_get. rewrite Hparse, Hfind0. reflexivity. }
  intros now1 torrents1 Hup1. rewrite Hclient0 in Hup1.
  change (default [] (Some torrents0)) with torrents0 in Hup1.
  destruct (engineUpdate_find h _ _ i t Hup1 Hfind0) as (t1 & Hfind1).
  destruct (ontorrent_upserts itemName itemId h
              (meanwhile now1 torrents1
                 (snd (addTorrent magnetURI itemName itemId s)))
              torrents1 i t1 eq_refl Hfind1)
    as (t' & Hclient2 & Hhash' & Hcount).
  intros now2 torrents2 Hup2. rewrite Hclient2 in Hup2.
  change (default [] (Some (<[i:=t']> torrents1)))
    with (<[i:=t']> torrents1) in Hup2.
  assert (list_find (λ t0, Torrent.infoHash t0 = h) (<[i:=t']> torrents1)
          = Some (i, t')) as Hfind2.
  { pose proof Hfind1 as (Hi & _ & Hleast)%list_find_Some.
    apply lookup_lt_Some in Hi.
    apply list_find_insert_Some. right. left. auto. }
  destruct (engineUpdate_find h _ _ i t' Hup2 Hfind2) as (t2 & Hfind3).
  split.
  - apply (addTorrent_present _ _ _ _ torrents2 t2); [reflexivity|].
    unfold client_get. rewrite Hparse, Hfind3. reflexivity.
  - cbn [warned meanwhile Service.history Service.with_console
         Service.with_client Service.with_clock].
    rewrite Hcount.
    cbn [meanwhile Service.history Service.with_client Service.with_clock].
    rewrite Hhist0. reflexivity.
Qed.

(** ** Properties of [getLargestFileForStreaming] *)



(** ** Further properties of the status classifier *)

(** X1.  A torrent that is ready and done is classified [seeding] when its
    upload rate is positive and [done] otherwise, whatever its peers and
    times, and the call assigns nothing to it. *)
Theorem finished_torrent_status (now : Z) (t : Torrent.t) :
  Torrent.ready t = true ->
  Torrent.done t = true ->
  classify now t
  = (if 0 <? Torrent.uploadSpeed t
     then TorrentProgressStatus.seeding else TorrentProgressStatus.done)
  /\ snd (getTorrentProgress now t) = t.
Proof.
  intros Hready Hdone. unfold classify, getTorrentProgress.
  rewrite Hready, Hdone.
  destruct (0 <? Torrent.uploadSpeed t); split; classifier; reflexivity.
Qed.

(** X2.  The classifier never answers [idle], [connecting] or [error]: the
    initial 'connecting' is always overwritten. *)
Theorem classify_range (now : Z) (t : Torrent.t) :
  classify now t <> TorrentProgressStatus.idle
  /\ classify now t <> TorrentProgressStatus.connecting
  /\ classify now t <> TorrentProgressStatus.error.
Proof.
  unfold classify, getTorrentProgress.
  destruct (0 <? Torrent.uploadSpeed t);
    repeat split; classifier; discriminate.
Qed.

(** X3.  The classifier answers [stalled] exactly for a torrent that is
    ready, not done, not paused, has peers and a zero download rate, and
    whose stored, non-zero last progress time lies more than 30 seconds
    back. *)
Theorem classify_stalled_iff (now : Z) (t : Torrent.t) :
  classify now t = TorrentProgressStatus.stalled
  <-> Torrent.ready t = true /\ Torrent.done t = false
      /\ Torrent.paused t = false
      /\ Torrent.downloadSpeed t = 0 /\ 0 < Torrent.numPeers t
      /\ exists lastProgress,
           Torrent.lastProgressTime t = Some lastProgress
           /\ lastProgress <> 0
           /\ STALL_TIMEOUT < now - lastProgress.
Proof.
  assert (STALL_TIMEOUT < now - num_or (Torrent.lastProgressTime t) now
          <-> exists lastProgress,
                Torrent.lastProgressTime t = Some lastProgress
                /\ lastProgress <> 0 /\ STALL_TIMEOUT < now - lastProgress)
    as Hlast.
  { unfold STALL_TIMEOUT. destruct (Torrent.lastProgressTime t) as [v|]; cbn.
    - destruct (Z.eqb_spec v 0) as [-> | Hv].
      + split; [lia|]. intros (lp & [= <-] & Hnz & _). congruence.
      + split; [eauto|]. intros (lp & [= <-] & _ & Hlt). exact Hlt.
    - split; [lia|]. intros (lp & Habs & _). discriminate. }
  rewrite <- Hlast. clear Hlast.
  unfold classify, getTorrentProgress, STALL_TIMEOUT, NO_PEERS_TIMEOUT.
  destruct (Torrent.ready t), (Torrent.done t), (Torrent.paused t),
    (0 <? Torrent.uploadSpeed t);
    repeat (cbn [andb negb fst snd TorrentProgress.status Torrent.numPeers
                 Torrent.set_lastProgressTime Torrent.set_noPeersReason
                 Torrent.addedDate];
            try classifier_step);
    split; try discriminate; try (intros (? & ? & ? & ?); discriminate);
    try (intros _; repeat split; lia);
    try (intros (_ & _ & _ & ? & ? & ?); lia);
    try reflexivity.
Qed.

(** X4.  The classifier answers [no_peers] exactly for a torrent that is
    not finished (not ready, or not done), has no peer, and was added more
    than 60 seconds ago. *)
Theorem classify_no_peers_iff (now : Z) (t : Torrent.t) :
  classify now t = TorrentProgressStatus.no_peers
  <-> (Torrent.ready t = false \/ Torrent.done t = false)
      /\ noPeersTimedOut now t.
Proof.
  unfold noPeersTimedOut. rewrite <- num_or_zero.
  unfold classify, getTorrentProgress, STALL_TIMEOUT, NO_PEERS_TIMEOUT.
  destruct (Torrent.ready t), (Torrent.done t), (Torrent.paused t),
    (0 <? Torrent.uploadSpeed t);
    repeat (cbn [andb negb fst snd TorrentProgress.status Torrent.numPeers
                 Torrent.set_lastProgressTime Torrent.set_noPeersReason
                 Torrent.addedDate];
            try classifier_step);
    split; try discriminate; try reflexivity;
    try (intros ([? | ?] & ? & ?); (discriminate || lia));
    try (intros _; split; [auto | split; [assumption | lia]]).
Qed.

(** The classifier's tests in a hypothesis, one after the other. *)
Ltac decide_status_in P E :=
  first
    [ rewrite (bool_decide_eq_true_2 P) in E by congruence
    | rewrite (bool_decide_eq_false_2 P) in E
        by (congruence || (let H := fresh in intros H; apply H; reflexivity)) ].

Ltac classifier_in E :=
  unfold getTorrentProgress, STALL_TIMEOUT, NO_PEERS_TIMEOUT in E;
  repeat (cbn [andb negb Torrent.numPeers Torrent.addedDate
               Torrent.set_lastProgressTime Torrent.set_noPeersReason] in E;
          match type of E with
          | context [bool_decide ?P] => decide_status_in P E
          | context [if Torrent.ready ?t then _ else _] =>
              destruct (Torrent.ready t) eqn:?
          | context [if Torrent.done ?t then _ else _] =>
              destruct (Torrent.done t) eqn:?
          | context [if Torrent.paused ?t then _ else _] =>
              destruct (Torrent.paused t) eqn:?
          | context [Z.eqb ?a ?b] => destruct (Z.eqb a b) eqn:?
          | context [Z.ltb ?a ?b] => destruct (Z.ltb a b) eqn:?
          end).

(** Reuse in the goal the outcomes of tests already made. *)
Ltac reuse_tests :=
  repeat match goal with
         | H : ?b = true |- context [?b] => rewrite H
         | H : ?b = false |- context [?b] => rewrite H
         end.

(** X5.  Classifying twice at the same instant gives the same progress and
    leaves the same torrent as classifying once. *)
Theorem getTorrentProgress_idempotent (now : Z) (t : Torrent.t) :
  getTorrentProgress now (snd (getTorrentProgress now t))
  = getTorrentProgress now t.
Proof.
  destruct (getTorrentProgress now t) as [p u] eqn:E. cbn [snd].
  classifier_in E; injection E as <- <-;
    unfold getTorrentProgress, STALL_TIMEOUT, NO_PEERS_TIMEOUT;
    repeat (cbn [andb negb Torrent.ready Torrent.done Torrent.paused
                 Torrent.uploadSpeed Torrent.downloadSpeed Torrent.numPeers
                 Torrent.lastProgressTime Torrent.addedDate
                 Torrent.set_lastProgressTime Torrent.set_noPeersReason];
            reuse_tests;
            try match goal with
                | |- context [bool_decide ?P] => decide_status P
                end);
    reflexivity.
Qed.


(** ** Properties of the progress emitter and of [getAllTorrentsProgress] *)

Lemma emitProgress_from (rest pre : list Torrent.t) (s : Service.t) :
  Service.client s = Some (pre ++ rest) ->
  forEach emitProgressAt (seq (List.length pre) (List.length rest)) s
  = (Returns tt,
     Service.with_emitted
       (Service.emitted s
        ++ map (λ t, Event.progress
                       (fst (getTorrentProgress (Service.clock s) t))) rest)
       (Service.with_client
          (Some (pre ++ map (λ t, snd (getTorrentProgress (Service.clock s) t))
                            rest)) s)).
Proof.
  revert pre s. induction rest as [|t rest IH]; intros pre s Hclient.
  - cbn [List.length seq forEach map]. rewrite !app_nil_r in *.
    destruct s; cbn in *. rewrite Hclient. reflexivity.
  - cbn [List.length seq forEach map]. run.
    rewrite (emitProgressAt_step s (pre ++ t :: rest) (List.length pre) t
               Hclient)
      by (rewrite lookup_app_r, Nat.sub_diag by lia; reflexivity).
    set (t' := snd (getTorrentProgress (Service.clock s) t)).
    set (s1 := Service.with_emitted _ _).
    assert (<[List.length pre := t']> (pre ++ t :: rest)
            = (pre ++ [t']) ++ rest) as Hins.
    { rewrite <- (Nat.add_0_r (List.length pre)), insert_app_r.
      rewrite <- app_assoc. reflexivity. }
    assert (Service.client s1 = Some ((pre ++ [t']) ++ rest)) as Hclient1
      by (subst s1; cbn; rewrite Hins; reflexivity).
    specialize (IH (pre ++ [t']) s1 Hclient1).
    rewrite length_app in IH. cbn [List.length] in IH.
    rewrite Nat.add_1_r in IH. rewrite IH.
    subst s1 t'. destruct s. cbn. rewrite <- !app_assoc. reflexivity.
Qed.

(** X7.  One round of the progress emitter emits one 'progress' event for
    each torrent of the active set, in the order of the set, each carrying
    what the classifier answers at the current time; the torrents keep what
    the classifier assigned, and nothing else changes.  Without a client
    the round does nothing. *)
Theorem emitProgress_round (s : Service.t) :
  match Service.client s with
  | Some torrents =>
      emitProgress s
      = (Returns tt,
         Service.with_emitted
           (Service.emitted s
            ++ map (λ t, Event.progress
                           (fst (getTorrentProgress (Service.clock s) t)))
                   torrents)
           (Service.with_client
              (Some (map (λ t, snd (getTorrentProgress (Service.clock s) t))
                         torrents)) s))
  | None => emitProgress s = (Returns tt, s)
  end.
Proof.
  destruct (Service.client s) as [torrents|] eqn:Hclient.
  - unfold emitProgress. run. rewrite Hclient.
    exact (emitProgress_from torrents [] s Hclient).
  - unfold emitProgress. run. rewrite Hclient. reflexivity.
Qed.

(** X8.  Polling and pushing agree: [getAllTorrentsProgress] returns, in
    order, the payloads a round of the emitter would emit from the same
    state, leaves the same active set, and emits nothing itself. *)
Theorem getAllTorrentsProgress_agrees (s : Service.t) :
  exists polled,
    fst (getAllTorrentsProgress s) = Returns polled
    /\ Service.emitted (snd (emitProgress s))
       = Service.emitted s ++ map Event.progress polled
    /\ Service.client (snd (getAllTorrentsProgress s))
       = Service.client (snd (emitProgress s))
    /\ Service.emitted (snd (getAllTorrentsProgress s)) = Service.emitted s
    /\ (Service.client s = None -> polled = []).
Proof.
  unfold getAllTorrentsProgress, emitProgress. run.
  destruct (Service.client s) as [torrents|] eqn:Hclient.
  - pose proof (emitProgress_from torrents [] s Hclient) as Hfrom.
    cbn [List.length app] in Hfrom. rewrite Hfrom. cbn.
    eexists. split; [reflexivity|].
    rewrite !map_map. repeat split. discriminate.
  - cbn. exists []. rewrite app_nil_r, Hclient. repeat split.
Qed.

(** ** Further properties of the history store *)

(** What [saveHistory] leaves: the payload and a 'historyUpdated' event
    when the storage takes the write, a console line when it does not. *)
Lemma saveHistory_state (s : Service.t) :
  saveHistory s
  = (Returns tt,
     if Service.storageAccessible s
     then Service.with_emitted
            (Service.emitted s ++ [Event.historyUpdated])
            (Service.with_storageItem
               (Some (JSON_stringify (Service.history s))) s)
     else Service.with_console
            (Service.console s
             ++ [Console.error "Failed to save download history:"
                               "SecurityError"]) s).
Proof.
  unfold saveHistory. run.
  destruct (Service.storageAccessible s); reflexivity.
Qed.

(** [updateHistory] is [saveHistory] after the upsert in memory. *)
Lemma updateHistory_run (torrent : Torrent.t)
    (status : option HistoryStatus.t) (lastError : option string)
    (s : Service.t) :
  exists history',
    updateHistory torrent status lastError s
    = saveHistory (Service.with_history history' s)
    /\ match recordOf (Torrent.infoHash torrent) (Service.history s) with
       | Some (i, existing) =>
           history'
           = <[i := upserted torrent (newStatusOf torrent status) lastError
                      (Service.clock s) existing]> (Service.history s)
       | None =>
           exists created,
             history' = created :: Service.history s
             /\ isFreshRecord toISOString torrent (Service.clock s) created
             /\ HistoryItem.status created = newStatusOf torrent status
             /\ HistoryItem.lastError created = lastError
       end.
Proof.
  unfold updateHistory, recordOf. run.
  destruct (list_find _ (Service.history s)) as [[i existing]|].
  - eexists. split; reflexivity.
  - eexists. split; [reflexivity|]. eexists. split; [reflexivity|].
    repeat split.
Qed.

(** X9.  What [saveHistory] persists, [loadHistory] reads back: when the
    storage takes the write and [JSON.parse] inverts [JSON.stringify] on
    the history at hand, a service starting from the stored payload,
    whatever it held in memory, ends with the saved history. *)
Theorem saveHistory_loadHistory (s : Service.t)
    (stale : list HistoryItem.t) :
  Service.storageAccessible s = true ->
  JSON_stringify (Service.history s) <> "" ->
  JSON_parse (JSON_stringify (Service.history s)) = Some (Service.history s) ->
  exists s1 s2,
    saveHistory s = (Returns tt, s1)
    /\ loadHistory (Service.with_history stale s1) = (Returns tt, s2)
    /\ Service.history s2 = Service.history s
    /\ Service.console s2 = Service.console s.
Proof.
  intros Hacc Hne Hparse. rewrite saveHistory_state, Hacc.
  eexists. cut (forall s1 : Service.t,
    s1 = Service.with_emitted (Service.emitted s ++ [Event.historyUpdated])
           (Service.with_storageItem
              (Some (JSON_stringify (Service.history s))) s) ->
    exists s2, loadHistory (Service.with_history stale s1) = (Returns tt, s2)
               /\ Service.history s2 = Service.history s
               /\ Service.console s2 = Service.console s).
  { intros Hload. destruct (Hload _ eq_refl) as (s2 & Hs2).
    exists s2. split; [reflexivity | exact Hs2]. }
  intros s1 ->. unfold loadHistory. run. cbn. rewrite Hacc.
  destruct (JSON_stringify (Service.history s)) as [|c text] eqn:Htext;
    [congruence|].
  rewrite Hparse. eexists. split; [reflexivity|]. split; reflexivity.
Qed.

(** X10.  A failed write does not lose the upsert: when the storage cannot
    be accessed, [updateHistory] still returns normally with the record in
    memory under the new status; it emits no event, leaves the stored
    payload alone and reports the failure on the console. *)
Theorem updateHistory_storage_failure (torrent : Torrent.t)
    (status : option HistoryStatus.t) (lastError : option string)
    (s : Service.t) :
  Service.storageAccessible s = false ->
  exists s' i record,
    updateHistory torrent status lastError s = (Returns tt, s')
    /\ recordOf (Torrent.infoHash torrent) (Service.history s')
       = Some (i, record)
    /\ HistoryItem.status record = newStatusOf torrent status
    /\ Service.emitted s' = Service.emitted s
    /\ Service.storageItem s' = Service.storageItem s
    /\ Service.console s'
       = Service.console s
         ++ [Console.error "Failed to save download history:"
                           "SecurityError"].
Proof.
  intros Hacc.
  destruct (updateHistory_run torrent status lastError s)
    as (history' & Hrun & Hhist).
  rewrite Hrun, saveHistory_state. cbn. rewrite Hacc.
  unfold recordOf in *.
  destruct (list_find _ (Service.history s)) as [[i existing]|] eqn:Hfind.
  - subst history'.
    eexists _, i, (upserted torrent (newStatusOf torrent status) lastError
                     (Service.clock s) existing).
    split; [reflexivity|]. cbn.
    split; [|split; [reflexivity | repeat split]].
    pose proof Hfind as (Hi & Hhash & Hleast)%list_find_Some.
    apply lookup_lt_Some in Hi.
    apply list_find_insert_Some. right. left.
    split; [reflexivity|]. split; [reflexivity|]. split; [exact Hi|].
    split; [exact Hhash | exact Hleast].
  - destruct Hhist as (created & -> & Hfresh & Hstatus & _).
    destruct Hfresh as (Hhash & _).
    eexists _, 0%nat, created. split; [reflexivity|]. cbn.
    split; [|repeat split; exact Hstatus].
    rewrite decide_True by exact Hhash. reflexivity.
Qed.

(** Replacing an element the filter drops by another it drops leaves the
    filtered list alone. *)
Lemma filter_insert_dropped {A : Type} (P : A -> Prop)
    `{!forall x, Decision (P x)} (l : list A) (i : nat) (x y : A) :
  l !! i = Some x -> ~ P x -> ~ P y ->
  filter P (<[i := y]> l) = filter P l.
Proof.
  revert i. induction l as [|z l IH]; intros i Hi Hx Hy; [discriminate|].
  destruct i as [|i].
  - injection Hi as ->. change (<[0%nat := y]> (x :: l)) with (y :: l).
    rewrite !filter_cons_False by assumption. reflexivity.
  - change (<[S i := y]> (z :: l)) with (z :: <[i := y]> l).
    rewrite !filter_cons. rewrite (IH i Hi Hx Hy). reflexivity.
Qed.

(** The record an upsert leaves for the torrent's info hash. *)
Lemma updateHistory_record (torrent : Torrent.t)
    (status : option HistoryStatus.t) (lastError : option string)
    (s : Service.t) :
  exists s' i record,
    updateHistory torrent status lastError s = (Returns tt, s')
    /\ recordOf (Torrent.infoHash torrent) (Service.history s')
       = Some (i, record)
    /\ HistoryItem.status record = newStatusOf torrent status
    /\ Service.client s' = Service.client s
    /\ match recordOf (Torrent.infoHash torrent) (Service.history s) with
       | Some (j, existing) =>
           i = j
           /\ record = upserted torrent (newStatusOf torrent status) lastError
                         (Service.clock s) existing
           /\ Service.history s' = <[j := record]> (Service.history s)
       | None =>
           i = 0%nat
           /\ Service.history s' = record :: Service.history s
           /\ isFreshRecord toISOString torrent (Service.clock s) record
           /\ HistoryItem.lastError record = lastError
       end.
Proof.
  destruct (updateHistory_run torrent status lastError s)
    as (history' & Hrun & Hhist).
  destruct (saveHistory_returns (Service.with_history history' s))
    as (s' & Hsave & Hh & Hc & _).
  rewrite Hrun, Hsave. cbn in Hh, Hc. unfold recordOf in *.
  destruct (list_find _ (Service.history s)) as [[i existing]|] eqn:Hfind.
  - subst history'.
    pose proof Hfind as (Hi & Hhash & Hleast)%list_find_Some.
    exists s', i, (upserted torrent (newStatusOf torrent status) lastError
                     (Service.clock s) existing).
    split; [reflexivity|]. rewrite Hh.
    split; [|split; [reflexivity | split; [exact Hc | auto] ] ].
    apply list_find_insert_Some. right. left.
    split; [reflexivity|]. split; [reflexivity|].
    split; [eapply lookup_lt_Some; exact Hi|].
    split; [exact Hhash | exact Hleast].
  - destruct Hhist as (created & -> & Hfresh & Hstatus & Herr).
    pose proof Hfresh as (Hhash & _).
    exists s', 0%nat, created. split; [reflexivity|]. rewrite Hh.
    split; [cbn; rewrite decide_True by exact Hhash; reflexivity|].
    split; [exact Hstatus|]. split; [exact Hc | auto].
Qed.

(** X11.  [updateHistory] is an upsert.  Afterwards the history has a
    record for the torrent's info hash, with the new status and the
    torrent's size.  When there was none, the record is new, stands first,
    and carries the torrent's link, its custom name or else its name, the
    time it was added or else the current time, no completion date, and the
    error message given; when there was one, the history keeps its length.
    The records of every other info hash are as before. *)
Theorem updateHistory_upsert (torrent : Torrent.t)
    (status : option HistoryStatus.t) (lastError : option string)
    (s : Service.t) :
  exists s' i record,
    updateHistory torrent status lastError s = (Returns tt, s')
    /\ recordOf (Torrent.infoHash torrent) (Service.history s')
       = Some (i, record)
    /\ HistoryItem.status record = newStatusOf torrent status
    /\ HistoryItem.size record = Some (Torrent.length torrent)
    /\ (recordOf (Torrent.infoHash torrent) (Service.history s) = None ->
        i = 0%nat
        /\ Service.history s' = record :: Service.history s
        /\ isFreshRecord toISOString torrent (Service.clock s) record
        /\ HistoryItem.lastError record = lastError)
    /\ (is_Some (recordOf (Torrent.infoHash torrent) (Service.history s)) ->
        List.length (Service.history s') = List.length (Service.history s))
    /\ (forall h, h <> Torrent.infoHash torrent ->
        recordsFor h (Service.history s') = recordsFor h (Service.history s)).
Proof.
  destruct (updateHistory_record torrent status lastError s)
    as (s' & i & record & Hrun & Hrec & Hstatus & _ & Hcase).
  exists s', i, record. split; [exact Hrun|]. split; [exact Hrec|].
  split; [exact Hstatus|]. unfold recordOf, recordsFor in *.
  destruct (list_find _ (Service.history s)) as [[j existing]|] eqn:Hfind.
  - destruct Hcase as (-> & -> & Hh).
    pose proof Hfind as (Hj & Hhash & _)%list_find_Some.
    split; [reflexivity|]. split; [discriminate|].
    split; [intros _; rewrite Hh; apply length_insert|].
    intros h Hne. rewrite Hh.
    apply (filter_insert_dropped _ _ _ existing); [exact Hj | | ]; cbn;
      congruence.
  - destruct Hcase as (-> & Hh & Hfresh & Herr).
    pose proof Hfresh as (Hhash & _ & _ & _ & _ & _ & Hsize).
    split; [exact Hsize|]. split; [intros _; auto|].
    split; [intros [x Hx]; discriminate|].
    intros h Hne. rewrite Hh. apply filter_cons_False. congruence.
Qed.

Lemma filter_out_nothing_left (h : string) (l : list HistoryItem.t) :
  filter (λ item, HistoryItem.infoHash item = h)
    (filter (λ item, HistoryItem.infoHash item <> h) l) = [].
Proof.
  induction l as [|x l IH]; [reflexivity|].
  rewrite (filter_cons (λ item, HistoryItem.infoHash item <> h)).
  case_decide; [|exact IH].
  rewrite filter_cons_False by assumption. exact IH.
Qed.

Lemma filter_out_absent (h : string) (l : list HistoryItem.t) :
  Forall (λ item, HistoryItem.infoHash item <> h) l ->
  filter (λ item, HistoryItem.infoHash item <> h) l = l.
Proof.
  induction 1 as [|x l Hx _ IH]; [reflexivity|].
  rewrite filter_cons_True by exact Hx. f_equal. exact IH.
Qed.

(** X12.  [removeFromHistory] returns normally and leaves no record of the
    info hash; the records of every other info hash are as before, a
    history without a record of it is left as it was, and the active set
    is not touched. *)
Theorem removeFromHistory_removes (infoHash : string) (s : Service.t) :
  exists s',
    removeFromHistory infoHash s = (Returns tt, s')
    /\ recordsFor infoHash (Service.history s') = []
    /\ recordOf infoHash (Service.history s') = None
    /\ (forall h, h <> infoHash ->
        recordsFor h (Service.history s') = recordsFor h (Service.history s))
    /\ (recordOf infoHash (Service.history s) = None ->
        Service.history s' = Service.history s)
    /\ Service.client s' = Service.client s.
Proof.
  unfold removeFromHistory. run.
  match goal with
  | |- context [saveHistory ?s1] =>
      destruct (saveHistory_returns s1) as (s' & Hsave & Hh & Hc & _)
  end.
  rewrite Hsave. exists s'. split; [reflexivity|]. rewrite Hh, Hc. cbn.
  unfold recordsFor, recordOf.
  pose proof (filter_out_nothing_left infoHash (Service.history s)) as Hnone.
  split; [exact Hnone|]. split.
  { apply list_find_None, Forall_forall. intros x Hx HP.
    exact (filter_nil_not_elem_of _ _ x Hnone HP Hx). }
  split; [|split; [|reflexivity]].
  - intros h Hne. rewrite list_filter_filter. apply list_filter_iff.
    intros x. split; [intros [Hx _]; exact Hx|].
    intros Hx. split; [exact Hx | congruence].
  - intros Hfind. apply list_find_None in Hfind.
    apply filter_out_absent. exact Hfind.
Qed.

(** ** Further properties of [addTorrent] and of the engine's callback *)

Lemma getClient_run (s : Service.t) :
  getClient s
  = (Returns (default [] (Service.client s)),
     match Service.client s with
     | Some _ => s
     | None => Service.with_progressInterval true
                 (Service.with_client (Some []) s)
     end).
Proof.
  unfold getClient, startProgressEmitter. run.
  destruct (Service.client s); reflexivity.
Qed.

Lemma client_get_find (torrentId : string) (torrents : list Torrent.t) :
  client_get torrentId torrents = snd <$> client_find torrentId torrents.
Proof.
  unfold client_get, client_find.
  destruct (parseTorrent torrentId); reflexivity.
Qed.

(** X13.  [addTorrent] of a link the engine can read and that is not yet
    active leaves the promise pending and puts one torrent at the end of
    the active set, creating the client (and starting the progress
    emitter) when there was none.  The new torrent is found under the info
    hash of the link, so that the link now finds it; it has no
    [customName], [itemId], [addedDate] or [lastProgressTime] until the
    engine calls back, and its other fields are the engine's.  Nothing is
    recorded yet: the history, the stored payload, the emitted events and
    the console are as before. *)
Theorem addTorrent_starts (magnetURI h : string) (itemName : option string)
    (itemId : option ItemId) (s : Service.t) :
  parseTorrent magnetURI = Some h ->
  client_get magnetURI (default [] (Service.client s)) = None ->
  exists s' t,
    addTorrent magnetURI itemName itemId s = (Returns Pending, s')
    /\ Service.client s' = Some (default [] (Service.client s) ++ [t])
    /\ client_get magnetURI (default [] (Service.client s')) = Some t
    /\ Torrent.infoHash t = h
    /\ Torrent.customName t = None
    /\ Torrent.itemId t = None
    /\ Torrent.addedDate t = None
    /\ Torrent.lastProgressTime t = None
    /\ Torrent.name t = Torrent.name (client_add magnetURI)
    /\ Torrent.magnetURI t = Torrent.magnetURI (client_add magnetURI)
    /\ Torrent.ready t = Torrent.ready (client_add magnetURI)
    /\ Service.history s' = Service.history s
    /\ Service.storageItem s' = Service.storageItem s
    /\ Service.emitted s' = Service.emitted s
    /\ Service.console s' = Service.console s
    /\ Service.progressInterval s'
       = match Service.client s with
         | Some _ => Service.progressInterval s
         | None => true
         end.
Proof.
  intros Hparse Hget. unfold addTorrent.
  unfold mbind at 1, M_bind. rewrite getClient_run. rewrite Hget, Hparse.
  run. eexists _, (addedTorrent h magnetURI). split; [reflexivity|].
  destruct (Service.client s) as [torrents|] eqn:Hclient; cbn in *.
  - split; [reflexivity|]. split; [|repeat split].
    unfold client_get in *. rewrite Hparse in *.
    destruct (list_find _ torrents) as [[j x]|] eqn:Hfind; [discriminate|].
    rewrite list_find_app_r by exact Hfind. cbn.
    rewrite decide_True by reflexivity. reflexivity.
  - split; [reflexivity|]. split; [|repeat split].
    unfold client_get. rewrite Hparse. cbn.
    rewrite decide_True by reflexivity. reflexivity.
Qed.

(** X14.  When the engine calls back for a torrent of the active set, the
    promise of [addTorrent] resolves to that torrent, which now carries the
    name and id given to [addTorrent] and the current time as its
    [addedDate] and [lastProgressTime]; it replaces the torrent in the
    active set; the history has a record for it with status [active] (a
    new one, dated now, when it had none); and 'added' is the last event
    emitted, after the history was saved. *)
Theorem ontorrent_effect (itemName : option string) (itemId : option ItemId)
    (h : string) (s : Service.t) (torrents : list Torrent.t) (i : nat)
    (t : Torrent.t) :
  Service.client s = Some torrents ->
  list_find (λ t, Torrent.infoHash t = h) torrents = Some (i, t) ->
  exists s' e j record,
    addTorrent_ontorrent itemName itemId h s = (Returns (Resolved (Some e)), s')
    /\ e = Torrent.enhance itemName itemId (Service.clock s) t
    /\ Service.client s' = Some (<[i := e]> torrents)
    /\ recordOf h (Service.history s') = Some (j, record)
    /\ HistoryItem.status record = HistoryStatus.active
    /\ (recordOf h (Service.history s) = None ->
        Service.history s' = record :: Service.history s
        /\ HistoryItem.name record = name_or itemName (Torrent.name t)
        /\ HistoryItem.addedDate record = toISOString (Service.clock s))
    /\ last (Service.emitted s') = Some (Event.added e)
    /\ (forall now, now - Service.clock s <= NO_PEERS_TIMEOUT ->
        classify now e <> TorrentProgressStatus.no_peers).
Proof.
  intros Hclient Hfind.
  pose proof Hfind as (_ & Hhash & _)%list_find_Some.
  set (e := Torrent.enhance itemName itemId (Service.clock s) t).
  assert (Torrent.infoHash e = h) as He by exact Hhash.
  unfold addTorrent_ontorrent. run. rewrite Hclient, Hfind. run. fold e.
  match goal with
  | |- context [updateHistory e ?st ?err ?s0] =>
      destruct (updateHistory_record e st err s0)
        as (s1 & j & record & Hrun & Hrec & Hstatus & Hc & Hcase)
  end.
  rewrite Hrun. rewrite He in *.
  cbn [Service.history Service.client Service.clock Service.with_console
       Service.with_client] in Hrec, Hcase, Hc.
  exists (Service.with_emitted (Service.emitted s1 ++ [Event.added e]) s1),
    e, j, record.
  split; [reflexivity|]. split; [reflexivity|]. cbn.
  split; [exact Hc|]. split; [exact Hrec|]. split; [exact Hstatus|].
  split; [|split; [apply last_snoc|]].
  - intros Hnone. rewrite Hnone in Hcase.
    destruct Hcase as (_ & Hh & Hfresh & _).
    split; [exact Hh|].
    destruct Hfresh as (_ & _ & Hname & _ & Hdate & _).
    split; [exact Hname | exact Hdate].
  - intros now Hnow Hno.
    assert (classify now e = TorrentProgressStatus.no_peers
            -> noPeersTimedOut now e) as Hiff.
    { intros Hc'. unfold noPeersTimedOut.
      revert Hc'. unfold classify, getTorrentProgress, NO_PEERS_TIMEOUT.
      destruct (Torrent.ready e), (Torrent.done e), (Torrent.paused e),
        (0 <? Torrent.uploadSpeed e);
        repeat (cbn [andb negb fst snd TorrentProgress.status
                     Torrent.numPeers Torrent.set_lastProgressTime
                     Torrent.set_noPeersReason Torrent.addedDate];
                rewrite ?num_or_zero; try classifier_step);
        intros Hc'; try discriminate; split; (assumption || lia). }
    destruct (Hiff Hno) as (_ & Hlate). subst e. cbn in Hlate.
    unfold NO_PEERS_TIMEOUT in *. lia.
Qed.

(** ** The keys stay apart *)

Lemma getTorrentProgress_infoHash (now : Z) (t : Torrent.t) :
  Torrent.infoHash (snd (getTorrentProgress now t)) = Torrent.infoHash t.
Proof.
  unfold getTorrentProgress.
  destruct (Torrent.ready t), (Torrent.done t), (Torrent.paused t),
    (0 <? Torrent.uploadSpeed t); classifier; reflexivity.
Qed.

(** Writing over an element another with the same key leaves the keys. *)
Lemma keys_insert {A K : Type} (key : A -> K) (l : list A) (i : nat)
    (x y : A) :
  l !! i = Some x -> key y = key x -> key <$> <[i := y]> l = key <$> l.
Proof.
  intros Hi Hkey. rewrite list_fmap_insert, Hkey.
  apply list_insert_id. rewrite list_lookup_fmap, Hi. reflexivity.
Qed.

Lemma keys_find_None {A : Type} (key : A -> string) (l : list A)
    (h : string) :
  list_find (λ x, key x = h) l = None -> h ∉ key <$> l.
Proof.
  intros Hnone%list_find_None Hin.
  apply list_elem_of_fmap in Hin as (x & -> & Hx).
  rewrite Forall_forall in Hnone. exact (Hnone x Hx eq_refl).
Qed.

Lemma keys_filter {A : Type} (key : A -> string) (P : A -> Prop)
    `{!forall x, Decision (P x)} (l : list A) :
  NoDup (key <$> l) -> NoDup (key <$> filter P l).
Proof.
  induction l as [|x l IH]; [intros; constructor|].
  rewrite fmap_cons, NoDup_cons. intros [Hx Hl].
  rewrite filter_cons. case_decide; [|auto].
  rewrite fmap_cons, NoDup_cons. split; [|auto].
  intros Hin. apply Hx.
  apply list_elem_of_fmap in Hin as (y & -> & Hy).
  apply list_elem_of_filter in Hy as [_ Hy].
  apply list_elem_of_fmap_2. exact Hy.
Qed.

Lemma updateHistory_keeps (torrent : Torrent.t)
    (status : option HistoryStatus.t) (lastError : option string)
    (s : Service.t) :
  exists s',
    updateHistory torrent status lastError s = (Returns tt, s')
    /\ Service.client s' = Service.client s
    /\ (historyUnique (Service.history s) ->
        historyUnique (Service.history s')).
Proof.
  destruct (updateHistory_run torrent status lastError s)
    as (history' & Hrun & Hhist).
  destruct (saveHistory_returns (Service.with_history history' s))
    as (s' & Hsave & Hh & Hc & _).
  exists s'. rewrite Hrun. split; [exact Hsave|]. split; [exact Hc|].
  rewrite Hh. cbn. unfold historyUnique, recordOf in *.
  destruct (list_find _ (Service.history s)) as [[i existing]|] eqn:Hfind.
  - subst history'. apply list_find_Some in Hfind as (Hi & _ & _).
    rewrite (keys_insert _ _ _ existing) by (exact Hi || reflexivity).
    auto.
  - destruct Hhist as (created & -> & (Hhash & _) & _).
    intros Hunique. rewrite fmap_cons. apply NoDup_cons.
    split; [|exact Hunique].
    rewrite Hhash. apply keys_find_None. exact Hfind.
Qed.

(** A method that finds its torrent at [i], writes it back with the same
    info hash and then upserts the history. *)
Lemma write_back_keeps (s0 : Service.t) (torrents : list Torrent.t) (i : nat)
    (t t' : Torrent.t) (status : option HistoryStatus.t) :
  activeUnique torrents ->
  historyUnique (Service.history s0) ->
  Service.client s0 = Some (<[i := t']> torrents) ->
  torrents !! i = Some t ->
  Torrent.infoHash t' = Torrent.infoHash t ->
  exists s',
    updateHistory t' status None s0 = (Returns tt, s') /\ wellKeyed s'.
Proof.
  intros Hactive Hhistory Hclient Hi Hhash.
  destruct (updateHistory_keeps t' status None s0)
    as (s' & Hrun & Hc & Hkeeps).
  exists s'. split; [exact Hrun|].
  split; [|apply Hkeeps; exact Hhistory].
  rewrite Hc, Hclient. cbn. unfold activeUnique in *.
  rewrite (keys_insert _ _ _ t) by assumption. exact Hactive.
Qed.

Lemma perform_keeps (call : Call) (s : Service.t) :
  wellKeyed s -> wellKeyed (snd (perform call s)).
Proof.
  intros Hkeyed. pose proof Hkeyed as [Hactive Hhistory].
  destruct call as [magnetURI itemName itemId | itemName itemId h | | | id
                   | id | id err | id | | infoHash]; cbn [perform].
  - (* addTorrent *)
    unfold addTorrent. run. rewrite getClient_run.
    assert (wellKeyed
              match Service.client s with
              | Some _ => s
              | None => Service.with_progressInterval true
                          (Service.with_client (Some []) s)
              end) as Hkeyed1
      by (destruct (Service.client s); [exact Hkeyed|];
          split; [constructor | exact Hhistory]).
    unfold client_get.
    destruct (parseTorrent magnetURI) as [h|]; [|exact Hkeyed1].
    destruct (list_find _ (default [] (Service.client s)))
      as [[j x]|] eqn:Hfind; cbn; [exact Hkeyed1|].
    split; [|destruct (Service.client s); exact Hhistory].
    unfold activeUnique in *.
    assert (NoDup (Torrent.infoHash
                     <$> default [] (Service.client s)
                         ++ [addedTorrent h magnetURI])) as Hnew.
    { rewrite fmap_app. apply NoDup_app. split; [exact Hactive|].
      split; [|apply NoDup_singleton].
      intros y Hy [= ->]%list_elem_of_singleton.
      exact (keys_find_None _ _ _ Hfind Hy). }
    destruct (Service.client s); exact Hnew.
  - (* the engine's callback *)
    unfold addTorrent_ontorrent. run.
    destruct (Service.client s) as [torrents|] eqn:Hclient; [|exact Hkeyed].
    destruct (list_find _ torrents) as [[i t]|] eqn:Hfind; [|exact Hkeyed].
    pose proof Hfind as (Hi & _ & _)%list_find_Some. run.
    match goal with
    | |- context [updateHistory ?e ?st ?er ?s0] =>
        destruct (write_back_keeps s0 torrents i t e st Hactive Hhistory
                    eq_refl Hi eq_refl) as (s' & Hrun & Hkeyed')
    end.
    rewrite Hrun. exact Hkeyed'.
  - (* the progress emitter *)
    unfold emitProgress. run.
    destruct (Service.client s) as [torrents|] eqn:Hclient; [|exact Hkeyed].
    pose proof (emitProgress_from torrents [] s Hclient) as Hfrom.
    cbn [List.length app] in Hfrom. rewrite Hfrom.
    split; [|exact Hhistory]. cbn. unfold activeUnique in *. cbn in Hactive.
    rewrite <- list_fmap_compose.
    erewrite list_fmap_ext; [exact Hactive|].
    intros k x _. apply getTorrentProgress_infoHash.
  - (* getAllTorrentsProgress *)
    unfold getAllTorrentsProgress. run.
    destruct (Service.client s) as [torrents|] eqn:Hclient; [|exact Hkeyed].
    split; [|exact Hhistory]. cbn. unfold activeUnique in *. cbn in Hactive.
    rewrite <- !list_fmap_compose.
    erewrite list_fmap_ext; [exact Hactive|].
    intros k x _. apply getTorrentProgress_infoHash.
  - (* pauseTorrent *)
    unfold pauseTorrent, client_find. run.
    destruct (Service.client s) as [torrents|] eqn:Hclient; [|exact Hkeyed].
    destruct (parseTorrent id) as [h|]; [|exact Hkeyed].
    destruct (list_find _ torrents) as [[i t]|] eqn:Hfind; [|exact Hkeyed].
    destruct (Torrent.paused t); [exact Hkeyed|]. cbn [negb].
    pose proof Hfind as (Hi & _ & _)%list_find_Some. run.
    match goal with
    | |- context [updateHistory ?e ?st ?er ?s0] =>
        destruct (write_back_keeps s0 torrents i t e st Hactive Hhistory
                    eq_refl Hi eq_refl) as (s' & Hrun & Hkeyed')
    end.
    rewrite Hrun. exact Hkeyed'.
  - (* resumeTorrent *)
    unfold resumeTorrent, client_find. run.
    destruct (Service.client s) as [torrents|] eqn:Hclient; [|exact Hkeyed].
    destruct (parseTorrent id) as [h|]; [|exact Hkeyed].
    destruct (list_find _ torrents) as [[i t]|] eqn:Hfind; [|exact Hkeyed].
    destruct (Torrent.paused t); [|exact Hkeyed].
    pose proof Hfind as (Hi & _ & _)%list_find_Some. run.
    match goal with
    | |- context [updateHistory ?e ?st ?er ?s0] =>
        destruct (write_back_keeps s0 torrents i t e st Hactive Hhistory
                    eq_refl Hi eq_refl) as (s' & Hrun & Hkeyed')
    end.
    rewrite Hrun. exact Hkeyed'.
  - (* removeTorrent *)
    unfold removeTorrent. run. rewrite getClient_run.
    assert (wellKeyed
              match Service.client s with
              | Some _ => s
              | None => Service.with_progressInterval true
                          (Service.with_client (Some []) s)
              end) as Hkeyed1
      by (destruct (Service.client s); [exact Hkeyed|];
          split; [constructor | exact Hhistory]).
    destruct (client_find id (default [] (Service.client s)))
      as [[i t]|] eqn:Hfind; [|exact Hkeyed1].
    match goal with
    | |- context [updateHistory ?e ?st ?er ?s0] =>
        destruct (updateHistory_keeps e st er s0) as (s' & Hrun & _ & Hkeeps)
    end.
    rewrite Hrun.
    assert (historyUnique (Service.history s')) as Hhistory'
      by (apply Hkeeps; destruct (Service.client s); exact Hhistory).
    assert (activeUnique (delete i (default [] (Service.client s))))
      as Hactive'.
    { unfold activeUnique in *. rewrite list_fmap_delete.
      eapply sublist_NoDup; [exact Hactive | apply sublist_delete]. }
    destruct err; split; (exact Hactive' || exact Hhistory').
  - (* getLargestFileForStreaming *)
    unfold getLargestFileForStreaming, getTorrent, createServer_listen, reduce.
    run.
    destruct (match Service.client s with
              | Some torrents => client_get id torrents
              | None => None
              end) as [t|]; [|exact Hkeyed].
    destruct (negb (Torrent.ready t)); [exact Hkeyed|].
    destruct (Torrent.files t) as [|a l]; [exact Hkeyed|].
    destruct (TorrentFile.createServer (fold_left larger l a)); exact Hkeyed.
  - (* clearHistory *)
    unfold clearHistory. run.
    match goal with
    | |- context [saveHistory ?s1] =>
        destruct (saveHistory_returns s1) as (s' & Hsave & Hh & Hc & _)
    end.
    rewrite Hsave. split; cbn; [rewrite Hc; exact Hactive|].
    unfold historyUnique. rewrite Hh. constructor.
  - (* removeFromHistory *)
    unfold removeFromHistory. run.
    match goal with
    | |- context [saveHistory ?s1] =>
        destruct (saveHistory_returns s1) as (s' & Hsave & Hh & Hc & _)
    end.
    rewrite Hsave. split; cbn; [rewrite Hc; exact Hactive|].
    unfold historyUnique. rewrite Hh. cbn. apply keys_filter. exact Hhistory.
Qed.

(** X15.  Through any run of calls (adding, the engine's callbacks, ticks
    of the emitter, polls, pausing, resuming, removing, streaming, clearing
    and pruning the history), each served in the state the one before left
    whether that one returned or threw, a state with one torrent for an
    info hash in the active set and one record for an info hash in the
    history stays such a state. *)
Theorem wellKeyed_kept (calls : list Call) (s : Service.t) :
  wellKeyed s -> wellKeyed (serve calls s).
Proof.
  revert s. unfold serve.
  induction calls as [|call calls IH]; intros s Hkeyed; [exact Hkeyed|].
  cbn [fold_left]. apply IH, perform_keeps, Hkeyed.
Qed.

(** ** Properties of [removeTorrent], [pauseTorrent] and [resumeTorrent] *)

Lemma find_after_write_back (h : string) (torrents : list Torrent.t)
    (i : nat) (t t' : Torrent.t) :
  list_find (λ t, Torrent.infoHash t = h) torrents = Some (i, t) ->
  Torrent.infoHash t' = h ->
  list_find (λ t, Torrent.infoHash t = h) (<[i := t']> torrents)
  = Some (i, t').
Proof.
  intros (Hi & _ & Hleast)%list_find_Some Hhash.
  apply list_find_insert_Some. right. left.
  split; [reflexivity|]. split; [reflexivity|].
  split; [eapply lookup_lt_Some; exact Hi|]. split; assumption.
Qed.

Lemma gone_after_delete (h : string) (torrents : list Torrent.t) (i : nat)
    (t : Torrent.t) :
  activeUnique torrents ->
  list_find (λ t, Torrent.infoHash t = h) torrents = Some (i, t) ->
  list_find (λ t, Torrent.infoHash t = h) (delete i torrents) = None.
Proof.
  unfold activeUnique. intros Hunique (Hi & Hhash & _)%list_find_Some.
  apply list_find_None, Forall_forall. intros x Hx Hxh.
  rewrite <- (take_drop_middle torrents i t Hi) in Hunique.
  rewrite delete_take_drop in Hx.
  rewrite fmap_app, fmap_cons in Hunique.
  apply NoDup_app in Hunique as (_ & Hapart & Hrest).
  apply NoDup_cons in Hrest as [Hnot _].
  apply elem_of_app in Hx as [Hx | Hx].
  - apply (Hapart (Torrent.infoHash x)).
    + apply list_elem_of_fmap_2. exact Hx.
    + rewrite Hxh, <- Hhash. apply elem_of_cons. left. reflexivity.
  - apply Hnot. rewrite Hhash, <- Hxh. apply list_elem_of_fmap_2. exact Hx.
Qed.

Lemma client_find_hash (torrentId : string) (torrents : list Torrent.t)
    (i : nat) (t : Torrent.t) :
  client_find torrentId torrents = Some (i, t) ->
  parseTorrent torrentId = Some (Torrent.infoHash t)
  /\ list_find (λ x, Torrent.infoHash x = Torrent.infoHash t) torrents
     = Some (i, t).
Proof.
  unfold client_find.
  destruct (parseTorrent torrentId) as [h|]; [|discriminate].
  intros Hfind. pose proof Hfind as (_ & <- & _)%list_find_Some.
  split; [reflexivity | exact Hfind].
Qed.

(** X16.  [removeTorrent] of a torrent of an active set that holds one
    torrent for an info hash: the history is upserted with status
    [removed] before anything else, the torrent leaves the active set, the
    others keeping their order, and the identifier no longer finds a
    torrent.  When the engine reports no error, 'removed' is emitted with
    the info hash, last; when it reports one, the error is written to the
    console and no 'removed' event is emitted, though the torrent is
    gone. *)
Theorem removeTorrent_known (infoHashOrMagnetURI : string)
    (err : option string) (s : Service.t) (torrents : list Torrent.t)
    (i : nat) (t : Torrent.t) :
  Service.client s = Some torrents ->
  client_find infoHashOrMagnetURI torrents = Some (i, t) ->
  activeUnique torrents ->
  exists s1 s' j record,
    updateHistory t (Some HistoryStatus.removed) None s = (Returns tt, s1)
    /\ removeTorrent infoHashOrMagnetURI err s = (Returns tt, s')
    /\ Service.client s' = Some (delete i torrents)
    /\ client_get infoHashOrMagnetURI (delete i torrents) = None
    /\ Service.history s' = Service.history s1
    /\ recordOf (Torrent.infoHash t) (Service.history s') = Some (j, record)
    /\ HistoryItem.status record = HistoryStatus.removed
    /\ Service.emitted s'
       = Service.emitted s1
         ++ match err with
            | None => [Event.removed (Torrent.infoHash t)]
            | Some _ => []
            end
    /\ Service.console s'
       = Service.console s1
         ++ match err with
            | None => []
            | Some e => [Console.error "Error removing torrent:" e]
            end.
Proof.
  intros Hclient Hfind Hunique.
  destruct (client_find_hash _ _ _ _ Hfind) as [Hparse Hlist].
  destruct (updateHistory_record t (Some HistoryStatus.removed) None s)
    as (s1 & j & record & Hrun & Hrec & Hstatus & _).
  unfold removeTorrent. run. rewrite getClient_run, Hclient.
  change (default [] (Some torrents)) with torrents.
  rewrite Hfind. run. rewrite Hrun.
  exists s1. destruct err as [e|]; eexists _, j, record;
    (split; [reflexivity|]); (split; [reflexivity|]); cbn;
    (split; [reflexivity|]);
    (split; [unfold client_get; rewrite Hparse;
             rewrite (gone_after_delete _ _ _ _ Hunique Hlist); reflexivity|]);
    (split; [reflexivity|]); (split; [exact Hrec|]);
    (split; [exact Hstatus|]); rewrite ?app_nil_r; split; reflexivity.
Qed.

(** X17.  [removeTorrent] of an identifier that finds no torrent records
    nothing and emits nothing: with a client the state is left as it was;
    without one, the call still creates the client and starts the progress
    emitter, and nothing else. *)
Theorem removeTorrent_unknown (infoHashOrMagnetURI : string)
    (err : option string) (s : Service.t) :
  client_find infoHashOrMagnetURI (default [] (Service.client s)) = None ->
  removeTorrent infoHashOrMagnetURI err s
  = (Returns tt,
     match Service.client s with
     | Some _ => s
     | None => Service.with_progressInterval true
                 (Service.with_client (Some []) s)
     end).
Proof.
  intros Hfind. unfold removeTorrent. run.
  rewrite getClient_run, Hfind. reflexivity.
Qed.

(** [addTorrent] of a readable link that is not active, on a service with
    a client. *)
Lemma addTorrent_pending (magnetURI h : string) (itemName : option string)
    (itemId : option ItemId) (s : Service.t) (torrents : list Torrent.t) :
  parseTorrent magnetURI = Some h ->
  Service.client s = Some torrents ->
  list_find (λ t, Torrent.infoHash t = h) torrents = None ->
  addTorrent magnetURI itemName itemId s
  = (Returns Pending,
     Service.with_client (Some (torrents ++ [addedTorrent h magnetURI])) s)
  /\ list_find (λ t, Torrent.infoHash t = h)
       (torrents ++ [addedTorrent h magnetURI])
     = Some (List.length torrents, addedTorrent h magnetURI).
Proof.
  intros Hparse Hclient Hfind. split.
  - unfold addTorrent. run. rewrite getClient_run, Hclient.
    change (default [] (Some torrents)) with torrents.
    unfold client_get. rewrite Hparse, Hfind. reflexivity.
  - rewrite list_find_app_r by exact Hfind. cbn.
    rewrite decide_True by reflexivity. reflexivity.
Qed.

(** X18.  Removing a torrent and adding its link again starts a new
    transfer: the second [addTorrent] leaves its promise pending, it does
    not resolve to [null].  When later the engine, having worked on the
    torrents, calls back, the promise resolves to the new torrent as the
    engine has it then, named and dated by the callback, but the history
    still has one record for the info hash, at the same place: its status
    is [active] again, while its [addedDate], [name], [completedDate] and
    [lastError] are those of the record as the removal left it, not those
    of the new transfer. *)
Theorem remove_then_add_again (magnetURI : string)
    (itemName : option string) (itemId : option ItemId) (s : Service.t)
    (torrents : list Torrent.t) (i : nat) (t : Torrent.t) :
  Service.client s = Some torrents ->
  client_find magnetURI torrents = Some (i, t) ->
  activeUnique torrents ->
  exists s1 s2 j removed,
    removeTorrent magnetURI None s = (Returns tt, s1)
    /\ recordOf (Torrent.infoHash t) (Service.history s1) = Some (j, removed)
    /\ HistoryItem.status removed = HistoryStatus.removed
    /\ addTorrent magnetURI itemName itemId s1 = (Returns Pending, s2)
    /\ forall now torrents',
         engineUpdate (default [] (Service.client s2)) torrents' ->
         exists s3 k t' again,
           list_find (λ x, Torrent.infoHash x = Torrent.infoHash t) torrents'
           = Some (k, t')
           /\ addTorrent_ontorrent itemName itemId (Torrent.infoHash t)
                (meanwhile now torrents' s2)
              = (Returns
                   (Resolved (Some (Torrent.enhance itemName itemId now t'))),
                 s3)
           /\ recordOf (Torrent.infoHash t) (Service.history s3)
              = Some (j, again)
           /\ List.length (Service.history s3)
              = List.length (Service.history s1)
           /\ HistoryItem.status again = HistoryStatus.active
           /\ HistoryItem.addedDate again = HistoryItem.addedDate removed
           /\ HistoryItem.name again = HistoryItem.name removed
           /\ HistoryItem.completedDate again
              = HistoryItem.completedDate removed
           /\ HistoryItem.lastError again = HistoryItem.lastError removed.
Proof.
  intros Hclient Hfind Hunique.
  destruct (client_find_hash _ _ _ _ Hfind) as [Hparse Hlist].
  set (h := Torrent.infoHash t) in *.
  (* the removal *)
  destruct (updateHistory_record t (Some HistoryStatus.removed) None s)
    as (s0 & j & removed & Hrun0 & Hrec0 & Hstatus0 & Hc0 & _).
  fold h in Hrec0.
  assert (removeTorrent magnetURI None s
          = (Returns tt,
             Service.with_emitted (Service.emitted s0 ++ [Event.removed h])
               (Service.with_client (Some (delete i torrents)) s0)))
    as Hremove.
  { unfold removeTorrent. run. rewrite getClient_run, Hclient.
    change (default [] (Some torrents)) with torrents.
    rewrite Hfind. run. rewrite Hrun0. reflexivity. }
  set (s1 := Service.with_emitted _ _) in Hremove.
  (* the second add *)
  destruct (addTorrent_pending magnetURI h itemName itemId s1
              (delete i torrents) Hparse eq_refl
              (gone_after_delete _ _ _ _ Hunique Hlist)) as [Hadd Hnew].
  set (s2 := Service.with_client _ s1) in Hadd.
  exists s1, s2, j, removed.
  split; [exact Hremove|]. split; [exact Hrec0|]. split; [exact Hstatus0|].
  split; [exact Hadd|].
  (* the callback, after the engine has worked on the torrents *)
  intros now torrents' Hup.
  change (default [] (Service.client s2))
    with (delete i torrents ++ [addedTorrent h magnetURI]) in Hup.
  destruct (engineUpdate_find h _ _ _ _ Hup Hnew) as (t' & Hfind').
  pose proof Hfind' as (_ & Hhash' & _)%list_find_Some.
  set (e := Torrent.enhance itemName itemId now t').
  assert (exists s3 again,
    addTorrent_ontorrent itemName itemId h (meanwhile now torrents' s2)
    = (Returns (Resolved (Some e)), s3)
    /\ recordOf h (Service.history s3) = Some (j, again)
    /\ Service.history s3 = <[j := again]> (Service.history s1)
    /\ again = upserted e HistoryStatus.active None now removed)
    as (s3 & again & Hcallback & Hrec3 & Hh3 & Hagain).
  { unfold addTorrent_ontorrent. run.
    change (Service.client (meanwhile now torrents' s2))
      with (Some torrents').
    run. rewrite Hfind'. run.
    change (Service.clock (meanwhile now torrents' s2)) with now. fold e.
    match goal with
    | |- context [updateHistory e ?st ?err ?s'] =>
        destruct (updateHistory_record e st err s')
          as (s3 & j' & again & Hrun & Hrec & _ & _ & Hcase)
    end.
    rewrite Hrun.
    change (Torrent.infoHash e) with (Torrent.infoHash t') in *.
    rewrite Hhash' in *.
    unfold meanwhile, s2, s1 in Hrec, Hcase.
    cbn [Service.history Service.clock Service.with_console
         Service.with_client Service.with_emitted Service.with_clock]
      in Hrec, Hcase.
    rewrite Hrec0 in Hcase. destruct Hcase as (-> & Hagain & Hh3).
    eexists _, again. split; [reflexivity|]. cbn.
    split; [exact Hrec|]. split; [exact Hh3 | exact Hagain]. }
  exists s3, (List.length (delete i torrents)), t', again.
  split; [exact Hfind'|]. split; [exact Hcallback|].
  split; [exact Hrec3|].
  split; [rewrite Hh3; apply length_insert|].
  subst again. repeat split.
Qed.

(** [pauseTorrent] on a torrent that is not paused, and [resumeTorrent] on
    one that is: the torrent is written back and the history upserted with
    the status left in [statusForHistory]. *)
Lemma pauseTorrent_run (infoHashOrMagnetURI : string) (s : Service.t)
    (torrents : list Torrent.t) (i : nat) (t : Torrent.t) :
  Service.client s = Some torrents ->
  client_find infoHashOrMagnetURI torrents = Some (i, t) ->
  Torrent.paused t = false ->
  pauseTorrent infoHashOrMagnetURI s
  = updateHistory
      (Torrent.set_statusForHistory (Some HistoryStatus.paused)
         (Torrent.set_paused true t)) None None
      (Service.with_client
         (Some (<[i := Torrent.set_statusForHistory
                          (Some HistoryStatus.paused)
                          (Torrent.set_paused true t)]> torrents)) s).
Proof.
  intros Hclient Hfind Hpaused. unfold pauseTorrent. run.
  rewrite Hclient, Hfind, Hpaused. reflexivity.
Qed.

Lemma resumeTorrent_run (infoHashOrMagnetURI : string) (s : Service.t)
    (torrents : list Torrent.t) (i : nat) (t : Torrent.t) :
  Service.client s = Some torrents ->
  client_find infoHashOrMagnetURI torrents = Some (i, t) ->
  Torrent.paused t = true ->
  resumeTorrent infoHashOrMagnetURI s
  = updateHistory
      (Torrent.set_statusForHistory (Some HistoryStatus.active)
         (Torrent.set_paused false t)) None None
      (Service.with_client
         (Some (<[i := Torrent.set_statusForHistory
                          (Some HistoryStatus.active)
                          (Torrent.set_paused false t)]> torrents)) s).
Proof.
  intros Hclient Hfind Hpaused. unfold resumeTorrent. run.
  rewrite Hclient, Hfind, Hpaused. reflexivity.
Qed.

(** X19.  [pauseTorrent] on a torrent of the active set that is not
    paused: the torrent is paused in place, and the history has a record
    for it whose status is the literal 'paused', which is not one of the
    six statuses [HistoryItem] declares; a record that was there keeps its
    [completedDate] and its [lastError].  From then on the classifier
    answers [paused] for the torrent when it is ready and not done, or
    [no_peers] once it has had no peer for 60 seconds. *)
Theorem pauseTorrent_effect (infoHashOrMagnetURI : string) (s : Service.t)
    (torrents : list Torrent.t) (i : nat) (t : Torrent.t) :
  Service.client s = Some torrents ->
  client_find infoHashOrMagnetURI torrents = Some (i, t) ->
  Torrent.paused t = false ->
  exists s' t' j record,
    pauseTorrent infoHashOrMagnetURI s = (Returns tt, s')
    /\ t' = Torrent.set_statusForHistory (Some HistoryStatus.paused)
              (Torrent.set_paused true t)
    /\ Service.client s' = Some (<[i := t']> torrents)
    /\ recordOf (Torrent.infoHash t) (Service.history s') = Some (j, record)
    /\ HistoryItem.status record = HistoryStatus.paused
    /\ (forall k existing,
          recordOf (Torrent.infoHash t) (Service.history s)
          = Some (k, existing) ->
          HistoryItem.completedDate record
          = HistoryItem.completedDate existing
          /\ HistoryItem.lastError record = HistoryItem.lastError existing)
    /\ (forall now,
          Torrent.ready t = true -> Torrent.done t = false ->
          classify now t' = TorrentProgressStatus.paused
          \/ classify now t' = TorrentProgressStatus.no_peers).
Proof.
  intros Hclient Hfind Hpaused.
  rewrite (pauseTorrent_run _ _ _ _ _ Hclient Hfind Hpaused).
  set (t' := Torrent.set_statusForHistory _ _).
  match goal with
  | |- context [updateHistory t' ?st ?err ?s0] =>
      destruct (updateHistory_record t' st err s0)
        as (s' & j & record & Hrun & Hrec & Hstatus & Hc & Hcase)
  end.
  change (Torrent.infoHash t') with (Torrent.infoHash t) in *.
  cbn [Service.history Service.client Service.with_client] in Hrec, Hcase, Hc.
  exists s', t', j, record. split; [exact Hrun|]. split; [reflexivity|].
  split; [exact Hc|]. split; [exact Hrec|]. split; [exact Hstatus|]. split.
  - intros k existing Hexisting. rewrite Hexisting in Hcase.
    destruct Hcase as (_ & -> & _). split; reflexivity.
  - intros now Hready Hdone. unfold classify, getTorrentProgress.
    change (Torrent.ready t') with (Torrent.ready t).
    change (Torrent.done t') with (Torrent.done t).
    change (Torrent.paused t') with true.
    rewrite Hready, Hdone.
    repeat (cbn [andb negb fst snd TorrentProgress.status];
            try classifier_step); auto.
Qed.

(** X20.  [pauseTorrent] does nothing (no change of the active set, no
    history record, no event) without a client, for an identifier that
    finds no torrent, and for a torrent already paused; [resumeTorrent]
    does nothing in the first two cases and for a torrent that is not
    paused. *)
Theorem pause_resume_idle (infoHashOrMagnetURI : string) (s : Service.t) :
  (match Service.client s with
   | Some torrents =>
       match client_find infoHashOrMagnetURI torrents with
       | Some (_, t) => Torrent.paused t = true
       | None => True
       end
   | None => True
   end -> pauseTorrent infoHashOrMagnetURI s = (Returns tt, s))
  /\ (match Service.client s with
      | Some torrents =>
          match client_find infoHashOrMagnetURI torrents with
          | Some (_, t) => Torrent.paused t = false
          | None => True
          end
      | None => True
      end -> resumeTorrent infoHashOrMagnetURI s = (Returns tt, s)).
Proof.
  unfold pauseTorrent, resumeTorrent. run.
  destruct (Service.client s) as [torrents|]; [|split; reflexivity].
  destruct (client_find infoHashOrMagnetURI torrents) as [[i t]|];
    [|split; reflexivity].
  split; intros ->; reflexivity.
Qed.

Lemma pause_idle_step (infoHashOrMagnetURI : string) (s : Service.t)
    (torrents : list Torrent.t) (i : nat) (t : Torrent.t) :
  Service.client s = Some torrents ->
  client_find infoHashOrMagnetURI torrents = Some (i, t) ->
  Torrent.paused t = true ->
  pauseTorrent infoHashOrMagnetURI s = (Returns tt, s).
Proof.
  intros Hclient Hfind Hpaused. unfold pauseTorrent. run.
  rewrite Hclient, Hfind, Hpaused. reflexivity.
Qed.

(** X21.  Pausing and then resuming a torrent that was not paused: a
    second [pauseTorrent] in between changes nothing; after
    [resumeTorrent] the torrent is at its place in the active set, not
    paused, as it was before but for [statusForHistory], which is now
    'active'; and the history has a record for it with status [active]. *)
Theorem pause_then_resume (infoHashOrMagnetURI : string) (s : Service.t)
    (torrents : list Torrent.t) (i : nat) (t : Torrent.t) :
  Service.client s = Some torrents ->
  client_find infoHashOrMagnetURI torrents = Some (i, t) ->
  Torrent.paused t = false ->
  exists s1 s2 j record,
    pauseTorrent infoHashOrMagnetURI s = (Returns tt, s1)
    /\ pauseTorrent infoHashOrMagnetURI s1 = (Returns tt, s1)
    /\ resumeTorrent infoHashOrMagnetURI s1 = (Returns tt, s2)
    /\ Service.client s2
       = Some (<[i := Torrent.set_statusForHistory
                        (Some HistoryStatus.active) t]> torrents)
    /\ recordOf (Torrent.infoHash t) (Service.history s2) = Some (j, record)
    /\ HistoryItem.status record = HistoryStatus.active.
Proof.
  intros Hclient Hfind Hpaused.
  destruct (client_find_hash _ _ _ _ Hfind) as [Hparse Hlist].
  set (t1 := Torrent.set_statusForHistory (Some HistoryStatus.paused)
               (Torrent.set_paused true t)).
  (* the pause *)
  pose proof (pauseTorrent_run _ _ _ _ _ Hclient Hfind Hpaused) as Hpause.
  fold t1 in Hpause.
  match type of Hpause with
  | _ = updateHistory t1 ?st ?err ?s0 =>
      destruct (updateHistory_record t1 st err s0)
        as (s1 & _ & _ & Hrun1 & _ & _ & Hc1 & _)
  end.
  rewrite Hrun1 in Hpause. cbn [Service.client Service.with_client] in Hc1.
  assert (client_find infoHashOrMagnetURI (<[i := t1]> torrents)
          = Some (i, t1)) as Hfind1.
  { unfold client_find. rewrite Hparse.
    apply (find_after_write_back _ _ _ t); [exact Hlist | reflexivity]. }
  (* the resume *)
  pose proof (resumeTorrent_run _ _ _ _ _ Hc1 Hfind1 eq_refl) as Hresume.
  set (t2 := Torrent.set_statusForHistory (Some HistoryStatus.active)
               (Torrent.set_paused false t1)) in Hresume.
  match type of Hresume with
  | _ = updateHistory t2 ?st ?err ?s0 =>
      destruct (updateHistory_record t2 st err s0)
        as (s2 & j & record & Hrun2 & Hrec2 & Hstatus2 & Hc2 & _)
  end.
  rewrite Hrun2 in Hresume. cbn [Service.client Service.with_client] in Hc2.
  exists s1, s2, j, record. split; [exact Hpause|]. split.
  { exact (pause_idle_step infoHashOrMagnetURI s1 (<[i := t1]> torrents)
             i t1 Hc1 Hfind1 eq_refl). }
  split; [exact Hresume|]. split; [|split; [exact Hrec2 | exact Hstatus2]].
  rewrite Hc2, list_insert_insert_eq. do 2 f_equal.
  subst t2 t1. destruct t. cbn in *. subst. reflexivity.
Qed.

(** ** Properties of the context's listeners *)

(** X22.  The 'progress' listener is an upsert on the context's list:
    afterwards the list has the new progress as its entry for that torrent
    id; a list that had one keeps its length and the place of the entry,
    a list that had none gets the progress at its end; the entries of
    every other id are as before, and a list with one entry for an id
    stays such a list. *)
Theorem progressListener_upsert (progress : TorrentProgress.t)
    (prev : list TorrentProgress.t) :
  (exists i,
     entryOf (TorrentProgress.torrentId progress)
       (progressListener progress prev) = Some (i, progress)
     /\ match entryOf (TorrentProgress.torrentId progress) prev with
        | Some (j, _) =>
            i = j /\ List.length (progressListener progress prev)
                     = List.length prev
        | None => progressListener progress prev = prev ++ [progress]
        end)
  /\ (forall id, id <> TorrentProgress.torrentId progress ->
      filter (λ t, TorrentProgress.torrentId t = id)
        (progressListener progress prev)
      = filter (λ t, TorrentProgress.torrentId t = id) prev)
  /\ (NoDup (TorrentProgress.torrentId <$> prev) ->
      NoDup (TorrentProgress.torrentId <$> progressListener progress prev)).
Proof.
  unfold progressListener, entryOf.
  destruct (list_find _ prev) as [[j old]|] eqn:Hfind.
  - pose proof Hfind as (Hj & Hid & Hleast)%list_find_Some.
    split; [|split].
    + exists j. split; [|split; [reflexivity | apply length_insert]].
      apply list_find_insert_Some. right. left.
      split; [reflexivity|]. split; [reflexivity|].
      split; [eapply lookup_lt_Some; exact Hj|].
      split; [reflexivity | exact Hleast].
    + intros id Hne.
      apply (filter_insert_dropped _ _ _ old); [exact Hj | | ]; congruence.
    + intros Hunique.
      rewrite (keys_insert _ _ _ old) by (exact Hj || congruence).
      exact Hunique.
  - split; [|split].
    + exists (List.length prev). split; [|reflexivity].
      rewrite list_find_app_r by exact Hfind. cbn.
      rewrite decide_True by reflexivity. reflexivity.
    + intros id Hne. rewrite filter_app, filter_cons_False by congruence.
      rewrite filter_nil. apply app_nil_r.
    + intros Hunique. rewrite fmap_app. apply NoDup_app.
      split; [exact Hunique|]. split; [|apply NoDup_singleton].
      intros y Hy [= ->]%list_elem_of_singleton.
      exact (keys_find_None _ _ _ Hfind Hy).
Qed.

(** X23.  The 'removed' listener leaves no entry for the info hash; the
    entries of every other id are as before, in their order; a list
    without an entry for it is left as it was, and a list with one entry
    for an id stays such a list. *)
Theorem removedListener_removes (infoHash : string)
    (prev : list TorrentProgress.t) :
  entryOf infoHash (removedListener infoHash prev) = None
  /\ (forall id, id <> infoHash ->
      filter (λ t, TorrentProgress.torrentId t = id)
        (removedListener infoHash prev)
      = filter (λ t, TorrentProgress.torrentId t = id) prev)
  /\ (entryOf infoHash prev = None -> removedListener infoHash prev = prev)
  /\ (NoDup (TorrentProgress.torrentId <$> prev) ->
      NoDup (TorrentProgress.torrentId <$> removedListener infoHash prev)).
Proof.
  unfold removedListener, entryOf. split; [|split; [|split]].
  - apply list_find_None, Forall_forall.
    intros x [Hx _]%list_elem_of_filter. exact Hx.
  - intros id Hne. rewrite list_filter_filter. apply list_filter_iff.
    intros x. split; [intros [Hx _]; exact Hx|].
    intros Hx. split; [exact Hx | congruence].
  - intros Hnone%list_find_None.
    induction Hnone as [|x l Hx _ IH]; [reflexivity|].
    rewrite filter_cons_True by exact Hx. f_equal. exact IH.
  - apply keys_filter.
Qed.

Lemma getTorrentProgress_torrentId (now : Z) (t : Torrent.t) :
  TorrentProgress.torrentId (fst (getTorrentProgress now t))
  = Torrent.infoHash t.
Proof.
  unfold getTorrentProgress.
  destruct (Torrent.ready t), (Torrent.done t), (Torrent.paused t),
    (0 <? Torrent.uploadSpeed t); classifier; reflexivity.
Qed.

(** Feeding fresh progresses, one for each id, to a list whose tail has
    the same ids in the same order replaces the tail entry by entry. *)
Lemma progress_replaces (fresh pre old : list TorrentProgress.t) :
  TorrentProgress.torrentId <$> old = TorrentProgress.torrentId <$> fresh ->
  NoDup (TorrentProgress.torrentId <$> pre ++ fresh) ->
  torrentsAfter (map Event.progress fresh) (pre ++ old) = pre ++ fresh.
Proof.
  revert pre old.
  induction fresh as [|p fresh IH]; intros pre old Hids Hunique.
  - destruct old; [reflexivity | discriminate].
  - destruct old as [|o old]; [discriminate|].
    injection Hids as Hid Hids. unfold torrentsAfter in *.
    cbn [map fold_left]. unfold progressListener at 2.
    assert (list_find
              (λ t, TorrentProgress.torrentId t = TorrentProgress.torrentId p)
              (pre ++ o :: old) = Some (List.length pre, o)) as ->.
    { apply list_find_app_Some. right. split; [lia|]. split.
      - apply list_find_None, Forall_forall. intros x Hx Hxp.
        rewrite fmap_app in Hunique.
        apply NoDup_app in Hunique as (_ & Hapart & _).
        apply (Hapart (TorrentProgress.torrentId x)).
        + apply list_elem_of_fmap_2. exact Hx.
        + rewrite Hxp. cbn. apply elem_of_cons. left. reflexivity.
      - rewrite Nat.sub_diag. cbn. rewrite decide_True by exact Hid.
        reflexivity. }
    rewrite <- (Nat.add_0_r (List.length pre)), insert_app_r.
    change (pre ++ <[0%nat := p]> (o :: old)) with (pre ++ [p] ++ old).
    rewrite (app_assoc pre [p] old), (IH (pre ++ [p]) old Hids).
    + rewrite <- app_assoc. reflexivity.
    + rewrite <- app_assoc. exact Hunique.
Qed.

Lemma progress_appends (fresh pre : list TorrentProgress.t) :
  NoDup (TorrentProgress.torrentId <$> pre ++ fresh) ->
  torrentsAfter (map Event.progress fresh) pre = pre ++ fresh.
Proof.
  revert pre. induction fresh as [|p fresh IH]; intros pre Hunique.
  - rewrite app_nil_r. reflexivity.
  - unfold torrentsAfter in *. cbn [map fold_left].
    unfold progressListener at 2.
    assert (list_find
              (λ t, TorrentProgress.torrentId t = TorrentProgress.torrentId p)
              pre = None) as ->.
    { apply list_find_None, Forall_forall. intros x Hx Hxp.
      rewrite fmap_app in Hunique.
      apply NoDup_app in Hunique as (_ & Hapart & _).
      apply (Hapart (TorrentProgress.torrentId x)).
      + apply list_elem_of_fmap_2. exact Hx.
      + rewrite Hxp. cbn. apply elem_of_cons. left. reflexivity. }
    rewrite (IH (pre ++ [p])); rewrite <- app_assoc; [reflexivity|].
    exact Hunique.
Qed.

(** X24.  The context can follow the service by its events alone.  For an
    active set with one torrent for an info hash, the 'progress' events of
    one round of the emitter turn the context's list into exactly what
    [getAllTorrentsProgress] returns from the same state, whether the list
    was empty or held the entries of an earlier round for the same
    torrents. *)
Theorem tick_rebuilds_context (s : Service.t) (torrents : list Torrent.t)
    (prev : list TorrentProgress.t) :
  Service.client s = Some torrents ->
  activeUnique torrents ->
  prev = []
  \/ TorrentProgress.torrentId <$> prev = Torrent.infoHash <$> torrents ->
  exists polled round,
    fst (getAllTorrentsProgress s) = Returns polled
    /\ Service.emitted (snd (emitProgress s)) = Service.emitted s ++ round
    /\ torrentsAfter round prev = polled.
Proof.
  intros Hclient Hunique Hprev.
  set (polled := map (λ t, fst (getTorrentProgress (Service.clock s) t))
                     torrents).
  assert (TorrentProgress.torrentId <$> polled = Torrent.infoHash <$> torrents)
    as Hids.
  { subst polled. rewrite <- list_fmap_compose. apply list_fmap_ext.
    intros k x _. apply getTorrentProgress_torrentId. }
  exists polled, (map Event.progress polled). split; [|split].
  - unfold getAllTorrentsProgress. run. rewrite Hclient. cbn.
    subst polled. rewrite map_map. reflexivity.
  - unfold emitProgress. run. rewrite Hclient.
    pose proof (emitProgress_from torrents [] s Hclient) as Hfrom.
    cbn [List.length app] in Hfrom. rewrite Hfrom. cbn.
    subst polled. rewrite map_map. reflexivity.
  - unfold activeUnique in Hunique. rewrite <- Hids in Hunique.
    destruct Hprev as [-> | Hprev].
    + exact (progress_appends polled [] Hunique).
    + apply (progress_replaces polled [] prev); [congruence | exact Hunique].
Qed.

End WebTorrentService.

(** ** The service on concrete inputs *)

(** C1, counterexample.  The link "m:ab12" names the torrent already in the
    active set; [addTorrent] resolves to [null], not to that torrent. *)
Lemma addTorrent_returns_null :
  client_get sample_parseTorrent "m:ab12" [with_files [file_a]]
  = Some (with_files [file_a])
  /\ fst (addTorrent sample_parseTorrent sample_client_add "m:ab12" None None
            (service_of [with_files [file_a]] [] None))
     = Returns (Resolved None)
  /\ fst (addTorrent sample_parseTorrent sample_client_add "m:ab12" None None
            (service_of [with_files [file_a]] [] None))
     <> Returns (Resolved (Some (with_files [file_a]))).
Proof. split; [reflexivity|]. split; [reflexivity|]. discriminate. Qed.

Lemma made_ready_update (torrents : list Torrent.t) :
  engineUpdate torrents (made_ready <$> torrents).
Proof.
  unfold engineUpdate. rewrite <- list_fmap_compose.
  apply list_fmap_ext. intros k x _. reflexivity.
Qed.

(** The retry of a failed download: the history holds a record of "ab12"
    when the link is added; the engine fetches the metadata, the callback
    runs four seconds later, and the link is added once more. *)
Lemma addTorrent_idempotent_witness :
  sample_parseTorrent "m:ab12" = Some "ab12"
  /\ (let s := service_of [] [record_other; record_failed] None in
      let s1 := snd (addTorrent sample_parseTorrent sample_client_add
                       "m:ab12" (Some "film") None s) in
      let s2 := snd (addTorrent_ontorrent sample_toISOString sample_stringify
                       (Some "film") None "ab12"
                       (meanwhile (t_added + 5000)
                          (made_ready <$> default [] (Service.client s1))
                          s1)) in
      let s3 := meanwhile (t_added + 9000)
                  (default [] (Service.client s2)) s2 in
      addTorrent sample_parseTorrent sample_client_add "m:ab12" None None s3
      = (Returns (Resolved None), warned "m:ab12" s3)
      /\ List.length (recordsFor "ab12" (Service.history (warned "m:ab12" s3)))
         = 1%nat).
Proof.
  split; [reflexivity|].
  pose proof (addTorrent_idempotent sample_toISOString sample_stringify
                sample_parseTorrent sample_client_add "m:ab12" "ab12"
                (Some "film") None None None
                (service_of [] [record_other; record_failed] None) eq_refl)
    as (_ & _ & Hlater).
  cbv zeta in *.
  exact (Hlater (t_added + 5000) _ (made_ready_update _)
           (t_added + 9000) _ eq_refl).
Defined.

(** C2, the failing input.  The torrent [addTorrent] has just put in the
    active set for the link "m:ab12", classified at the very reading of
    the clock at which it was added: it is not ready, has no peer and no
    [addedDate], and the classifier answers [no_peers], not [metadata],
    with the reason "No peers found after 60 seconds.". *)
Lemma classify_before_callback_witness :
  Service.client
    (snd (addTorrent sample_parseTorrent sample_client_add "m:ab12"
            (Some "film") None service_new))
  = Some [addedTorrent sample_client_add "ab12" "m:ab12"]
  /\ Torrent.ready (addedTorrent sample_client_add "ab12" "m:ab12") = false
  /\ Torrent.addedDate (addedTorrent sample_client_add "ab12" "m:ab12") = None
  /\ Torrent.numPeers (addedTorrent sample_client_add "ab12" "m:ab12") = 0
  /\ NO_PEERS_TIMEOUT < Service.clock service_new
  /\ classify (Service.clock service_new)
       (addedTorrent sample_client_add "ab12" "m:ab12")
     = TorrentProgressStatus.no_peers
  /\ TorrentProgress.noPeersReason
       (fst (getTorrentProgress (Service.clock service_new)
               (addedTorrent sample_client_add "ab12" "m:ab12")))
     = Some "No peers found after 60 seconds.".
Proof.
  assert (NO_PEERS_TIMEOUT < Service.clock service_new) as Hnow
    by reflexivity.
  split; [reflexivity|]. split; [reflexivity|]. split; [reflexivity|].
  split; [reflexivity|]. split; [exact Hnow|].
  exact (proj1 (classify_before_callback (Service.clock service_new)
                  (addedTorrent sample_client_add "ab12" "m:ab12")
                  eq_refl eq_refl Hnow) eq_refl).
Defined.

(** C3, counterexample.  The torrent is ready, not done, paused, has no
    peer and was added 61 seconds ago: the classifier answers [no_peers]. *)
Lemma paused_reports_no_peers :
  Torrent.ready paused_alone = true
  /\ Torrent.done paused_alone = false
  /\ Torrent.paused paused_alone = true
  /\ classify (t_added + 61000) paused_alone = TorrentProgressStatus.no_peers
  /\ classify (t_added + 61000) paused_alone <> TorrentProgressStatus.paused.
Proof. repeat (split; [reflexivity|]). discriminate. Qed.

Lemma classify_paused_witness :
  Torrent.ready paused_peers = true
  /\ Torrent.done paused_peers = false
  /\ Torrent.paused paused_peers = true
  /\ ~ noPeersTimedOut (t_added + 61000) paused_peers
  /\ classify (t_added + 61000) paused_peers = TorrentProgressStatus.paused.
Proof.
  assert (~ noPeersTimedOut (t_added + 61000) paused_peers) as Hn
    by (intros [Hpeers _]; discriminate Hpeers).
  repeat (split; [reflexivity|]). split; [exact Hn|].
  exact (proj2 (classify_paused (t_added + 61000) paused_peers
                  eq_refl eq_refl eq_refl) Hn).
Defined.

Lemma classify_stall_threshold_witness :
  Torrent.numPeers idle_peers = 3
  /\ Torrent.downloadSpeed idle_peers = 0
  /\ Torrent.lastProgressTime idle_peers = Some t_added
  /\ t_added <> 0
  /\ classify (t_added + 31000) idle_peers = TorrentProgressStatus.stalled
  /\ classify (t_added + 29000) idle_peers = TorrentProgressStatus.downloading.
Proof.
  assert (t_added <> 0) as Hnz by discriminate.
  repeat (split; [reflexivity|]). split; [exact Hnz|]. split.
  - exact (proj1 (classify_stall_threshold (t_added + 31000) t_added idle_peers
                    eq_refl eq_refl eq_refl eq_refl eq_refl eq_refl Hnz)
                 eq_refl).
  - exact (proj2 (classify_stall_threshold (t_added + 29000) t_added idle_peers
                    eq_refl eq_refl eq_refl eq_refl eq_refl eq_refl Hnz)
                 eq_refl).
Defined.

Lemma classify_no_peers_threshold_witness :
  Torrent.numPeers idle_alone = 0
  /\ Torrent.addedDate idle_alone = Some t_added
  /\ classify (t_added + 61000) idle_alone = TorrentProgressStatus.no_peers
  /\ classify (t_added + 59000) idle_alone <> TorrentProgressStatus.no_peers.
Proof.
  split; [reflexivity|]. split; [reflexivity|]. split.
  - exact (proj1 (proj1 (classify_no_peers_threshold (t_added + 61000) t_added
                           idle_alone eq_refl eq_refl eq_refl eq_refl eq_refl)
                        eq_refl)).
  - exact (proj2 (classify_no_peers_threshold (t_added + 59000) t_added
                    idle_alone eq_refl eq_refl eq_refl eq_refl eq_refl)
                 eq_refl).
Defined.

(** C6, counterexample.  Ready, not done, not paused, download rate zero and
    no peer: the call moves [lastProgressTime] from [t_added] to the current
    time. *)
Lemma zero_rate_refreshes_lastProgress :
  Torrent.downloadSpeed idle_alone = 0
  /\ Torrent.lastProgressTime idle_alone = Some t_added
  /\ lastProgressAfter (t_added + 5000) idle_alone = Some (t_added + 5000)
  /\ lastProgressAfter (t_added + 5000) idle_alone
     <> Torrent.lastProgressTime idle_alone.
Proof. repeat (split; [reflexivity|]). discriminate. Qed.

Lemma updateHistory_completedDate_witness :
  recordOf (Torrent.infoHash (with_files [file_a]))
           (Service.history (service_of [] [record_other; record_done] None))
  = Some (1%nat, record_done)
  /\ (exists s' updated,
        updateHistory sample_toISOString sample_stringify (with_files [file_a])
          (Some HistoryStatus.active) None
          (service_of [] [record_other; record_done] None)
        = (Returns tt, s')
        /\ Service.history s' !! 1%nat = Some updated
        /\ HistoryItem.status updated = HistoryStatus.active
        /\ HistoryItem.completedDate updated = Some "T+1690000100000")
  /\ (exists s' updated,
        updateHistory sample_toISOString sample_stringify (with_files [file_a])
          (Some HistoryStatus.completed) None
          (service_of [] [record_other; record_done] None)
        = (Returns tt, s')
        /\ Service.history s' !! 1%nat = Some updated
        /\ HistoryItem.completedDate updated = Some "T+1700000001000").
Proof.
  split; [reflexivity|]. split.
  - destruct (updateHistory_completedDate sample_toISOString sample_stringify
                (with_files [file_a]) (Some HistoryStatus.active) None
                (service_of [] [record_other; record_done] None)
                1%nat record_done eq_refl)
      as (s' & updated & Hrun & _ & Hat & Hstatus & _ & Hkeep).
    exists s', updated. split; [exact Hrun|]. split; [exact Hat|].
    split; [exact Hstatus|]. apply Hkeep. discriminate.
  - destruct (updateHistory_completedDate sample_toISOString sample_stringify
                (with_files [file_a]) (Some HistoryStatus.completed) None
                (service_of [] [record_other; record_done] None)
                1%nat record_done eq_refl)
      as (s' & updated & Hrun & _ & Hat & _ & Hset & _).
    exists s', updated. split; [exact Hrun|]. split; [exact Hat|].
    exact (Hset eq_refl).
Defined.

Lemma updateHistory_keeps_lastError_witness :
  Forall (λ u : Torrent.t * option HistoryStatus.t * option string,
            noMessage (snd u))
         [(with_files [file_a], Some HistoryStatus.completed, None);
          (freshTorrent "ef56" "m:ef56", None, Some "");
          (other_torrent, Some HistoryStatus.removed, None)]
  /\ recordOf "ab12"
       (Service.history (service_of [] [record_other; record_done] None))
     = Some (1%nat, record_done)
  /\ (exists s' i' kept,
        upsertAll sample_toISOString sample_stringify
          [(with_files [file_a], Some HistoryStatus.completed, None);
           (freshTorrent "ef56" "m:ef56", None, Some "");
           (other_torrent, Some HistoryStatus.removed, None)]
          (service_of [] [record_other; record_done] None)
        = (Returns tt, s')
        /\ recordOf "ab12" (Service.history s') = Some (i', kept)
        /\ HistoryItem.lastError kept = Some "disk full").
Proof.
  assert (Forall (λ u : Torrent.t * option HistoryStatus.t * option string,
                    noMessage (snd u))
            [(with_files [file_a], Some HistoryStatus.completed, None);
             (freshTorrent "ef56" "m:ef56", None, Some "");
             (other_torrent, Some HistoryStatus.removed, None)]) as Hall.
  { constructor; [left; reflexivity|]. constructor; [right; reflexivity|].
    constructor; [left; reflexivity|]. constructor. }
  split; [exact Hall|]. split; [reflexivity|].
  exact (updateHistory_keeps_lastError sample_toISOString sample_stringify
           _ (service_of [] [record_other; record_done] None)
           "ab12" 1%nat record_done Hall eq_refl).
Defined.

Lemma loadHistory_unreadable_witness :
  sample_parse "{oops" = None
  /\ (exists s',
        loadHistory sample_parse (service_of [] [record_done] (Some "{oops"))
        = (Returns tt, s')
        /\ Service.history s' = []
        /\ Service.console s'
           = [Console.error "Failed to load or parse download history:"
                            "SyntaxError"])
  /\ (exists s',
        loadHistory sample_parse (service_of [] [record_done] None)
        = (Returns tt, s')
        /\ Service.history s' = []).
Proof.
  split; [reflexivity|]. split.
  - destruct (loadHistory_unreadable sample_parse
                (service_of [] [record_done] (Some "{oops")))
      as (s' & Hrun & Hempty & _ & Hlog).
    { right. exists "{oops". split; reflexivity. }
    exists s'. split; [exact Hrun|]. split; [exact Hempty|].
    apply (Hlog "{oops"); [reflexivity | reflexivity | discriminate].
  - destruct (loadHistory_unreadable sample_parse
                (service_of [] [record_done] None))
      as (s' & Hrun & Hempty & _).
    { left. reflexivity. }
    exists s'. split; [exact Hrun | exact Hempty].
Defined.



(** A ready torrent without files: [reduce] throws. *)
Example streaming_no_files :
  fst (getLargestFileForStreaming sample_parseTorrent "m:ab12"
         (service_of [with_files []] [] None))
  = Throws "TypeError: Reduce of empty array with no initial value".
Proof. reflexivity. Qed.

(** ** The further properties on concrete inputs *)

Lemma finished_torrent_status_witness :
  Torrent.ready seeding_alone = true
  /\ Torrent.done seeding_alone = true
  /\ classify (t_added + 61000) seeding_alone = TorrentProgressStatus.seeding.
Proof.
  split; [reflexivity|]. split; [reflexivity|].
  exact (proj1 (finished_torrent_status (t_added + 61000) seeding_alone
                  eq_refl eq_refl)).
Defined.

Lemma classify_stalled_iff_witness :
  classify (t_added + 31000) idle_peers = TorrentProgressStatus.stalled.
Proof.
  apply (proj2 (classify_stalled_iff (t_added + 31000) idle_peers)).
  repeat (split; [reflexivity|]).
  exists t_added. split; [reflexivity|]. split; [discriminate | reflexivity].
Defined.

Lemma classify_no_peers_iff_witness :
  classify (t_added + 61000) idle_alone = TorrentProgressStatus.no_peers.
Proof.
  apply (proj2 (classify_no_peers_iff (t_added + 61000) idle_alone)).
  split; [right; reflexivity|]. split; reflexivity.
Defined.


Lemma getAllTorrentsProgress_agrees_witness :
  Service.client service_new = None
  /\ fst (getAllTorrentsProgress service_new) = Returns [].
Proof.
  split; [reflexivity|].
  destruct (getAllTorrentsProgress_agrees service_new)
    as (polled & Hpolled & _ & _ & _ & Hnone).
  rewrite Hpolled, (Hnone eq_refl). reflexivity.
Defined.

Lemma saveHistory_loadHistory_witness :
  Service.storageAccessible service_two = true
  /\ sample_stringify (Service.history service_two) <> ""
  /\ sample_parse_back [record_other; record_done]
       (sample_stringify (Service.history service_two))
     = Some (Service.history service_two)
  /\ (exists s1 s2,
        saveHistory sample_stringify service_two = (Returns tt, s1)
        /\ loadHistory (sample_parse_back [record_other; record_done])
             (Service.with_history [] s1) = (Returns tt, s2)
        /\ Service.history s2 = [record_other; record_done]).
Proof.
  assert (sample_stringify (Service.history service_two) <> "") as Hne
    by (vm_compute; discriminate).
  split; [reflexivity|]. split; [exact Hne|]. split; [reflexivity|].
  destruct (saveHistory_loadHistory sample_stringify
              (sample_parse_back [record_other; record_done])
              service_two [] eq_refl Hne eq_refl)
    as (s1 & s2 & Hsave & Hload & Hhistory & _).
  exists s1, s2. split; [exact Hsave|]. split; [exact Hload | exact Hhistory].
Defined.

Lemma updateHistory_storage_failure_witness :
  Service.storageAccessible service_blocked = false
  /\ (exists s' i record,
        updateHistory sample_toISOString sample_stringify
          (with_files [file_a]) (Some HistoryStatus.error) (Some "no space")
          service_blocked = (Returns tt, s')
        /\ recordOf "ab12" (Service.history s') = Some (i, record)
        /\ HistoryItem.status record = HistoryStatus.error
        /\ Service.emitted s' = []
        /\ Service.storageItem s' = None).
Proof.
  split; [reflexivity|].
  destruct (updateHistory_storage_failure sample_toISOString sample_stringify
              (with_files [file_a]) (Some HistoryStatus.error)
              (Some "no space") service_blocked eq_refl)
    as (s' & i & record & Hrun & Hrec & Hstatus & Hemitted & Hstored & _).
  exists s', i, record. split; [exact Hrun|]. split; [exact Hrec|].
  split; [exact Hstatus|]. split; [exact Hemitted | exact Hstored].
Defined.

Lemma updateHistory_upsert_witness :
  recordOf "ef56" (Service.history service_two) = None
  /\ (exists s' record,
        updateHistory sample_toISOString sample_stringify
          (freshTorrent "ef56" "m:ef56") None None service_two
        = (Returns tt, s')
        /\ Service.history s' = record :: Service.history service_two
        /\ HistoryItem.status record = HistoryStatus.active
        /\ HistoryItem.addedDate record = "T+1700000001000"
        /\ recordsFor "ab12" (Service.history s') = [record_done]).
Proof.
  split; [reflexivity|].
  destruct (updateHistory_upsert sample_toISOString sample_stringify
              (freshTorrent "ef56" "m:ef56") None None service_two)
    as (s' & i & record & Hrun & _ & Hstatus & _ & Hnew & _ & Hothers).
  destruct (Hnew eq_refl) as (_ & Hh & Hfresh & _).
  destruct Hfresh as (_ & _ & _ & _ & Hdate & _).
  exists s', record. split; [exact Hrun|]. split; [exact Hh|].
  split; [exact Hstatus|]. split; [exact Hdate|].
  rewrite (Hothers "ab12") by discriminate. reflexivity.
Defined.

Lemma removeFromHistory_removes_witness :
  "cd34" <> "ab12"
  /\ (exists s',
        removeFromHistory sample_stringify "ab12" service_two
        = (Returns tt, s')
        /\ recordOf "ab12" (Service.history s') = None
        /\ recordsFor "cd34" (Service.history s') = [record_other]).
Proof.
  assert ("cd34" <> "ab12") as Hne by discriminate.
  split; [exact Hne|].
  destruct (removeFromHistory_removes sample_stringify "ab12" service_two)
    as (s' & Hrun & _ & Hgone & Hothers & _).
  exists s'. split; [exact Hrun|]. split; [exact Hgone|].
  rewrite (Hothers "cd34" Hne). reflexivity.
Defined.

Lemma addTorrent_starts_witness :
  sample_parseTorrent "m:ef56" = Some "ef56"
  /\ client_get sample_parseTorrent "m:ef56"
       (default [] (Service.client service_two)) = None
  /\ (exists s' t,
        addTorrent sample_parseTorrent sample_client_add "m:ef56"
          (Some "Film") None service_two
        = (Returns Pending, s')
        /\ Service.client s' = Some [with_files [file_a]; other_torrent; t]
        /\ Torrent.infoHash t = "ef56"
        /\ Torrent.addedDate t = None
        /\ Torrent.magnetURI t = "magnet:?xt=urn:btih:ef56"
        /\ Service.history s' = Service.history service_two
        /\ Service.emitted s' = []).
Proof.
  split; [reflexivity|]. split; [reflexivity|].
  destruct (addTorrent_starts sample_parseTorrent sample_client_add
              "m:ef56" "ef56" (Some "Film") None service_two eq_refl eq_refl)
    as (s' & t & Hrun & Hclient & _ & Hhash & _ & _ & Hdate & _ & _ & Hlink
        & _ & Hhistory & _ & Hemitted & _).
  exists s', t. split; [exact Hrun|]. split; [exact Hclient|].
  split; [exact Hhash|]. split; [exact Hdate|]. split; [exact Hlink|].
  split; [exact Hhistory | exact Hemitted].
Defined.

Lemma ontorrent_effect_witness :
  Service.client service_two = Some [with_files [file_a]; other_torrent]
  /\ list_find (λ t, Torrent.infoHash t = "cd34")
       [with_files [file_a]; other_torrent] = Some (1%nat, other_torrent)
  /\ (exists s' e j record,
        addTorrent_ontorrent sample_toISOString sample_stringify
          (Some "Show") (Some (ItemNum 7)) "cd34" service_two
        = (Returns (Resolved (Some e)), s')
        /\ Torrent.customName e = Some "Show"
        /\ Torrent.addedDate e = Some (t_added + 1000)
        /\ recordOf "cd34" (Service.history s') = Some (j, record)
        /\ HistoryItem.status record = HistoryStatus.active
        /\ last (Service.emitted s') = Some (Event.added e)).
Proof.
  split; [reflexivity|]. split; [reflexivity|].
  destruct (ontorrent_effect sample_toISOString sample_stringify
              (Some "Show") (Some (ItemNum 7)) "cd34" service_two
              [with_files [file_a]; other_torrent] 1%nat other_torrent
              eq_refl eq_refl)
    as (s' & e & j & record & Hrun & He & _ & Hrec & Hstatus & _ & Hlast & _).
  exists s', e, j, record. split; [exact Hrun|].
  split; [rewrite He; reflexivity|]. split; [rewrite He; reflexivity|].
  split; [exact Hrec|]. split; [exact Hstatus | exact Hlast].
Defined.

(** A run in which streaming is rejected (the file object has no
    [createServer]) and the calls after it are served all the same. *)
Lemma wellKeyed_kept_witness :
  wellKeyed service_two
  /\ fst (perform sample_toISOString sample_stringify sample_parseTorrent
            sample_client_add (CallStream "m:ab12") service_two)
     = Throws "TypeError: file.createServer is not a function"
  /\ wellKeyed
       (serve sample_toISOString sample_stringify sample_parseTorrent
              sample_client_add
              [CallStream "m:ab12";
               CallAdd "m:ef56" (Some "Film") None;
               CallOnTorrent (Some "Film") None "ef56";
               CallTick;
               CallPause "m:ab12";
               CallRemove "#cd34" None;
               CallAdd "m:ab12" None None;
               CallRemoveFromHistory "cd34"]
              service_two).
Proof.
  assert (wellKeyed service_two) as Hkeyed
    by (split; unfold activeUnique, historyUnique;
        refine (@bool_decide_unpack (NoDup _) _ _); vm_compute; exact I).
  split; [exact Hkeyed|]. split; [reflexivity|].
  exact (wellKeyed_kept sample_toISOString sample_stringify
           sample_parseTorrent sample_client_add _ service_two Hkeyed).
Defined.

Lemma removeTorrent_known_witness :
  client_find sample_parseTorrent "m:ab12"
    [with_files [file_a]; other_torrent] = Some (0%nat, with_files [file_a])
  /\ activeUnique [with_files [file_a]; other_torrent]
  /\ (exists s' j record,
        removeTorrent sample_toISOString sample_stringify sample_parseTorrent
          "m:ab12" None service_two = (Returns tt, s')
        /\ Service.client s' = Some [other_torrent]
        /\ recordOf "ab12" (Service.history s') = Some (j, record)
        /\ HistoryItem.status record = HistoryStatus.removed
        /\ last (Service.emitted s') = Some (Event.removed "ab12")).
Proof.
  assert (activeUnique [with_files [file_a]; other_torrent]) as Hunique
    by (unfold activeUnique; refine (@bool_decide_unpack (NoDup _) _ _);
        vm_compute; exact I).
  split; [reflexivity|]. split; [exact Hunique|].
  destruct (removeTorrent_known sample_toISOString sample_stringify
              sample_parseTorrent "m:ab12" None service_two
              [with_files [file_a]; other_torrent] 0%nat
              (with_files [file_a]) eq_refl eq_refl Hunique)
    as (s1 & s' & j & record & _ & Hrun & Hclient & _ & _ & Hrec & Hstatus
        & Hemitted & _).
  exists s', j, record. split; [exact Hrun|]. split; [exact Hclient|].
  split; [exact Hrec|]. split; [exact Hstatus|].
  rewrite Hemitted. apply last_snoc.
Defined.

Lemma removeTorrent_unknown_witness :
  client_find sample_parseTorrent "m:ef56"
    (default [] (Service.client service_two)) = None
  /\ removeTorrent sample_toISOString sample_stringify sample_parseTorrent
       "m:ef56" None service_two = (Returns tt, service_two)
  /\ removeTorrent sample_toISOString sample_stringify sample_parseTorrent
       "m:ef56" None service_new
     = (Returns tt,
        Service.with_progressInterval true
          (Service.with_client (Some []) service_new)).
Proof.
  split; [reflexivity|]. split.
  - exact (removeTorrent_unknown sample_toISOString sample_stringify
             sample_parseTorrent "m:ef56" None service_two eq_refl).
  - exact (removeTorrent_unknown sample_toISOString sample_stringify
             sample_parseTorrent "m:ef56" None service_new eq_refl).
Defined.

(** The torrent "ab12" is removed and its link added again under another
    name; ninety seconds later the engine has the metadata and calls
    back. *)
Lemma remove_then_add_again_witness :
  activeUnique [with_files [file_a]; other_torrent]
  /\ (let s1 := snd (removeTorrent sample_toISOString sample_stringify
                       sample_parseTorrent "m:ab12" None service_two) in
      let s2 := snd (addTorrent sample_parseTorrent sample_client_add
                       "m:ab12" (Some "Renamed") None s1) in
      let torrents' := made_ready <$> default [] (Service.client s2) in
      fst (addTorrent sample_parseTorrent sample_client_add
             "m:ab12" (Some "Renamed") None s1) = Returns Pending
      /\ engineUpdate (default [] (Service.client s2)) torrents'
      /\ exists s3 e j again,
           addTorrent_ontorrent sample_toISOString sample_stringify
             (Some "Renamed") None "ab12"
             (meanwhile (t_added + 90000) torrents' s2)
           = (Returns (Resolved (Some e)), s3)
           /\ Torrent.ready e = true
           /\ Torrent.customName e = Some "Renamed"
           /\ Torrent.addedDate e = Some (t_added + 90000)
           /\ recordOf "ab12" (Service.history s3) = Some (j, again)
           /\ HistoryItem.status again = HistoryStatus.active
           /\ HistoryItem.name again = "film"
           /\ HistoryItem.addedDate again = "T+1690000000000"
           /\ HistoryItem.completedDate again = Some "T+1690000100000").
Proof.
  assert (activeUnique [with_files [file_a]; other_torrent]) as Hunique
    by (unfold activeUnique; refine (@bool_decide_unpack (NoDup _) _ _);
        vm_compute; exact I).
  split; [exact Hunique|]. cbv zeta.
  destruct (remove_then_add_again sample_toISOString sample_stringify
              sample_parseTorrent sample_client_add
              "m:ab12" (Some "Renamed") None service_two
              [with_files [file_a]; other_torrent] 0%nat
              (with_files [file_a]) eq_refl eq_refl Hunique)
    as (s1 & s2 & j & removed & Hremove & Hrec1 & _ & Hadd & Hlater).
  rewrite Hremove. cbn [snd]. rewrite Hadd. cbn [fst snd].
  split; [reflexivity|]. split; [apply made_ready_update|].
  destruct (Hlater (t_added + 90000)
              (made_ready <$> default [] (Service.client s2))
              (made_ready_update _))
    as (s3 & k & t' & again & Hfind & Hcallback & Hrec3 & _ & Hstatus
        & Hdate & Hname & Hdone & _).
  assert (s2 = snd (addTorrent sample_parseTorrent sample_client_add
                      "m:ab12" (Some "Renamed") None
                      (snd (removeTorrent sample_toISOString sample_stringify
                              sample_parseTorrent "m:ab12" None service_two))))
    as Hs2 by (rewrite Hremove; cbn [snd]; rewrite Hadd; reflexivity).
  assert (s1 = snd (removeTorrent sample_toISOString sample_stringify
                      sample_parseTorrent "m:ab12" None service_two))
    as Hs1 by (rewrite Hremove; reflexivity).
  rewrite Hs2 in Hfind. vm_compute in Hfind. injection Hfind as _ <-.
  rewrite Hs1 in Hrec1. vm_compute in Hrec1. injection Hrec1 as _ <-.
  eexists s3, _, j, again. split; [exact Hcallback|].
  split; [reflexivity|]. split; [reflexivity|]. split; [reflexivity|].
  split; [exact Hrec3|]. split; [exact Hstatus|].
  rewrite Hname, Hdate, Hdone. repeat split.
Defined.

Lemma pauseTorrent_effect_witness :
  Torrent.paused (with_files [file_a]) = false
  /\ (exists s' t' j record,
        pauseTorrent sample_toISOString sample_stringify sample_parseTorrent
          "#ab12" service_two = (Returns tt, s')
        /\ Service.client s' = Some [t'; other_torrent]
        /\ Torrent.paused t' = true
        /\ recordOf "ab12" (Service.history s') = Some (j, record)
        /\ HistoryItem.status record = HistoryStatus.paused
        /\ HistoryItem.completedDate record = Some "T+1690000100000"
        /\ classify (t_added + 5000) t' = TorrentProgressStatus.paused).
Proof.
  split; [reflexivity|].
  destruct (pauseTorrent_effect sample_toISOString sample_stringify
              sample_parseTorrent "#ab12" service_two
              [with_files [file_a]; other_torrent] 0%nat
              (with_files [file_a]) eq_refl eq_refl eq_refl)
    as (s' & t' & j & record & Hrun & Ht' & Hclient & Hrec & Hstatus & Hkept
        & _).
  exists s', t', j, record. split; [exact Hrun|]. split; [exact Hclient|].
  split; [rewrite Ht'; reflexivity|]. split; [exact Hrec|].
  split; [exact Hstatus|].
  split; [exact (proj1 (Hkept 1%nat record_done eq_refl))|].
  rewrite Ht'. reflexivity.
Defined.

Lemma pause_resume_idle_witness :
  pauseTorrent sample_toISOString sample_stringify sample_parseTorrent
    "m:ab12" (service_of [paused_peers] [] None)
  = (Returns tt, service_of [paused_peers] [] None)
  /\ resumeTorrent sample_toISOString sample_stringify sample_parseTorrent
       "m:ab12" service_two = (Returns tt, service_two)
  /\ pauseTorrent sample_toISOString sample_stringify sample_parseTorrent
       "m:ef56" service_two = (Returns tt, service_two).
Proof.
  split; [|split].
  - exact (proj1 (pause_resume_idle sample_toISOString sample_stringify
                    sample_parseTorrent "m:ab12"
                    (service_of [paused_peers] [] None)) eq_refl).
  - exact (proj2 (pause_resume_idle sample_toISOString sample_stringify
                    sample_parseTorrent "m:ab12" service_two) eq_refl).
  - exact (proj1 (pause_resume_idle sample_toISOString sample_stringify
                    sample_parseTorrent "m:ef56" service_two) I).
Defined.

Lemma pause_then_resume_witness :
  Torrent.paused other_torrent = false
  /\ (exists s1 s2 j record,
        pauseTorrent sample_toISOString sample_stringify sample_parseTorrent
          "m:cd34" service_two = (Returns tt, s1)
        /\ resumeTorrent sample_toISOString sample_stringify
             sample_parseTorrent "m:cd34" s1 = (Returns tt, s2)
        /\ Service.client s2
           = Some [with_files [file_a];
                   Torrent.set_statusForHistory (Some HistoryStatus.active)
                     other_torrent]
        /\ recordOf "cd34" (Service.history s2) = Some (j, record)
        /\ HistoryItem.status record = HistoryStatus.active).
Proof.
  split; [reflexivity|].
  destruct (pause_then_resume sample_toISOString sample_stringify
              sample_parseTorrent "m:cd34" service_two
              [with_files [file_a]; other_torrent] 1%nat other_torrent
              eq_refl eq_refl eq_refl)
    as (s1 & s2 & j & record & Hpause & _ & Hresume & Hclient & Hrec & Hstatus).
  exists s1, s2, j, record. split; [exact Hpause|]. split; [exact Hresume|].
  split; [exact Hclient|]. split; [exact Hrec | exact Hstatus].
Defined.

Lemma progressListener_upsert_witness :
  "ab12" <> "cd34"
  /\ progressListener (entry "cd34" 9) [entry "ab12" 1; entry "cd34" 2]
     = [entry "ab12" 1; entry "cd34" 9]
  /\ filter (λ t, TorrentProgress.torrentId t = "ab12")
       (progressListener (entry "cd34" 9) [entry "ab12" 1; entry "cd34" 2])
     = [entry "ab12" 1]
  /\ progressListener (entry "ef56" 4) [entry "ab12" 1]
     = [entry "ab12" 1; entry "ef56" 4].
Proof.
  assert ("ab12" <> "cd34") as Hne by discriminate.
  split; [exact Hne|]. split; [reflexivity|]. split.
  - rewrite (proj1 (proj2 (progressListener_upsert (entry "cd34" 9)
                             [entry "ab12" 1; entry "cd34" 2]))
               "ab12" Hne).
    reflexivity.
  - destruct (proj1 (progressListener_upsert (entry "ef56" 4)
                       [entry "ab12" 1])) as (i & _ & Happend).
    exact Happend.
Defined.

Lemma removedListener_removes_witness :
  "ab12" <> "cd34"
  /\ entryOf "cd34"
       (removedListener "cd34" [entry "ab12" 1; entry "cd34" 2]) = None
  /\ filter (λ t, TorrentProgress.torrentId t = "ab12")
       (removedListener "cd34" [entry "ab12" 1; entry "cd34" 2])
     = [entry "ab12" 1].
Proof.
  assert ("ab12" <> "cd34") as Hne by discriminate.
  split; [exact Hne|].
  destruct (removedListener_removes "cd34" [entry "ab12" 1; entry "cd34" 2])
    as (Hgone & Hothers & _).
  split; [exact Hgone|]. rewrite (Hothers "ab12" Hne). reflexivity.
Defined.

Lemma tick_rebuilds_context_witness :
  activeUnique [with_files [file_a]; other_torrent]
  /\ TorrentProgress.torrentId <$> [entry "ab12" 1; entry "cd34" 2]
     = Torrent.infoHash <$> [with_files [file_a]; other_torrent]
  /\ (exists polled round,
        fst (getAllTorrentsProgress service_two) = Returns polled
        /\ Service.emitted (snd (emitProgress service_two)) = round
        /\ torrentsAfter round [entry "ab12" 1; entry "cd34" 2] = polled
        /\ torrentsAfter round [] = polled).
Proof.
  assert (activeUnique [with_files [file_a]; other_torrent]) as Hunique
    by (unfold activeUnique; refine (@bool_decide_unpack (NoDup _) _ _);
        vm_compute; exact I).
  split; [exact Hunique|]. split; [reflexivity|].
  destruct (tick_rebuilds_context service_two
              [with_files [file_a]; other_torrent]
              [entry "ab12" 1; entry "cd34" 2] eq_refl Hunique
              (or_intror eq_refl))
    as (polled & round & Hpolled & Hround & Hafter).
  destruct (tick_rebuilds_context service_two
              [with_files [file_a]; other_torrent] [] eq_refl Hunique
              (or_introl eq_refl))
    as (polled' & round' & Hpolled' & Hround' & Hafter').
  assert (polled' = polled) as -> by congruence.
  assert (round' = round) as ->
    by (rewrite Hround in Hround'; cbn in Hround'; congruence).
  exists polled, round. split; [exact Hpolled|].
  split; [exact Hround|]. split; [exact Hafter | exact Hafter'].
Defined.
